(** * gorilla: [pkg/config/config.go]

    A shallow embedding of the configuration package: the invocation parser
    [parseArguments] and the configuration resolver [Get], with the
    properties the specification states about them.

    Modelling choices.
    - Go strings are [string]; the [[]byte] a file holds is [list byte];
      [[]string] is [list string] (a nil slice and an empty one are both
      [[]]).
    - A Go [error] is [option string]: [None] is [nil], [Some m] is an error
      whose [Error()] is [m].
    - The process is explicit state: the package-level flag variables, the
      report sink [report.Items], and the trace of what the process has done
      that is visible from outside (text printed, files read, sink writes).
    - [os.Exit] ends the computation: a computation either returns a value
      or has exited with a code.
    - What the package calls but does not define (the standard library, the
      YAML decoder, the [version] package) is a field of [World]. *)

From Stdlib Require Import ZArith Strings.Byte.
From stdpp Require Import base strings list gmap.

(** ** Data model *)

(** Go's [error]. *)
Definition error : Type := option string.

(** [err != nil] *)
Definition is_err (e : error) : bool :=
  match e with
  | Some _ => true
  | None => false
  end.

(** [type Configuration struct] (lines 61-79), field for field. *)
Record Configuration : Type := mkConfiguration {
  AppDataPath : string;
  AuthPass : string;
  AuthUser : string;
  BuildArg : bool;
  CachePath : string;
  Catalogs : list string;
  Debug : bool;
  ImportArg : string;
  Manifest : string;
  RepoPath : string;
  TLSAuth : bool;
  TLSClientCert : string;
  TLSClientKey : string;
  TLSServerCert : string;
  URL : string;
  URLPackages : string;
  Verbose : bool
}.

(** [var cfg Configuration]: the zero value. *)
Definition zero_Configuration : Configuration :=
  mkConfiguration "" "" "" false "" [] false "" "" "" false "" "" "" "" "" false.

(** Field assignments [cfg.F = v] for the fields [Get] writes. *)
Definition set_AppDataPath (v : string) (c : Configuration) : Configuration :=
  mkConfiguration v (AuthPass c) (AuthUser c) (BuildArg c) (CachePath c)
    (Catalogs c) (Debug c) (ImportArg c) (Manifest c) (RepoPath c) (TLSAuth c)
    (TLSClientCert c) (TLSClientKey c) (TLSServerCert c) (URL c)
    (URLPackages c) (Verbose c).

Definition set_BuildArg (v : bool) (c : Configuration) : Configuration :=
  mkConfiguration (AppDataPath c) (AuthPass c) (AuthUser c) v (CachePath c)
    (Catalogs c) (Debug c) (ImportArg c) (Manifest c) (RepoPath c) (TLSAuth c)
    (TLSClientCert c) (TLSClientKey c) (TLSServerCert c) (URL c)
    (URLPackages c) (Verbose c).

Definition set_CachePath (v : string) (c : Configuration) : Configuration :=
  mkConfiguration (AppDataPath c) (AuthPass c) (AuthUser c) (BuildArg c) v
    (Catalogs c) (Debug c) (ImportArg c) (Manifest c) (RepoPath c) (TLSAuth c)
    (TLSClientCert c) (TLSClientKey c) (TLSServerCert c) (URL c)
    (URLPackages c) (Verbose c).

Definition set_Debug (v : bool) (c : Configuration) : Configuration :=
  mkConfiguration (AppDataPath c) (AuthPass c) (AuthUser c) (BuildArg c)
    (CachePath c) (Catalogs c) v (ImportArg c) (Manifest c) (RepoPath c)
    (TLSAuth c) (TLSClientCert c) (TLSClientKey c) (TLSServerCert c) (URL c)
    (URLPackages c) (Verbose c).

Definition set_ImportArg (v : string) (c : Configuration) : Configuration :=
  mkConfiguration (AppDataPath c) (AuthPass c) (AuthUser c) (BuildArg c)
    (CachePath c) (Catalogs c) (Debug c) v (Manifest c) (RepoPath c)
    (TLSAuth c) (TLSClientCert c) (TLSClientKey c) (TLSServerCert c) (URL c)
    (URLPackages c) (Verbose c).

Definition set_URLPackages (v : string) (c : Configuration) : Configuration :=
  mkConfiguration (AppDataPath c) (AuthPass c) (AuthUser c) (BuildArg c)
    (CachePath c) (Catalogs c) (Debug c) (ImportArg c) (Manifest c)
    (RepoPath c) (TLSAuth c) (TLSClientCert c) (TLSClientKey c)
    (TLSServerCert c) (URL c) v (Verbose c).

Definition set_Verbose (v : bool) (c : Configuration) : Configuration :=
  mkConfiguration (AppDataPath c) (AuthPass c) (AuthUser c) (BuildArg c)
    (CachePath c) (Catalogs c) (Debug c) (ImportArg c) (Manifest c)
    (RepoPath c) (TLSAuth c) (TLSClientCert c) (TLSClientKey c)
    (TLSServerCert c) (URL c) (URLPackages c) v.

(** The package-level flag variables (lines 21-36) that [flag.Parse] fills. *)
Record Flags : Type := mkFlags {
  aboutArg : bool;
  configArg : string;
  debugArg : bool;
  buildArg : bool;
  importArg : string;
  helpArg : bool;
  verboseArg : bool;
  versionArg : bool
}.

(** Modelled from the spec: the value type of [report.Items], the
    process-wide reporting sink of package [report], which is not among the
    sources. The spec has it accept named facts, here [Manifest] mapped to a
    string and [Catalog] mapped to a sequence of strings. *)
Inductive item : Type :=
| ItemString (s : string)
| ItemStrings (l : list string).

(** What the process does that can be seen from outside, in order. *)
Inductive event : Type :=
| Print (text : string)               (* text written to standard output *)
| ReadFile (path : string)            (* [ioutil.ReadFile(path)] *)
| SetItem (key : string) (v : item).  (* [report.Items[key] = v] *)

Record process : Type := mkProcess {
  vars : Flags;
  Items : gmap string item;
  trace : list event
}.

(** A call either returns or ends the process with an exit code. *)
Inductive result (A : Type) : Type :=
| Returned (a : A)
| Exited (code : Z).
Arguments Returned {A} a.
Arguments Exited {A} code.

(** The collaborators of the package: the Go standard library, the YAML
    decoder and package [version]. [flag_Parse] maps the flag variables
    before the call to their values after it, or exits on a usage error;
    [yaml_Unmarshal b c] is [yaml.Unmarshal(b, &c)], giving the new contents
    of [c] and the returned error. *)
Record World : Type := mkWorld {
  os_Getenv : string -> string;
  filepath_Join : list string -> string;
  filepath_Clean : string -> string;
  flag_Parse : Flags -> result Flags;
  ioutil_ReadFile : string -> list byte * error;
  yaml_Unmarshal : list byte -> Configuration -> Configuration * error;
  version_Print : string;
  version_PrintFull : string
}.

(** ** Computations of the process *)

Definition M (A : Type) : Type := process -> result A * process.

#[global] Instance M_ret : MRet M := fun A a s => (Returned a, s).

#[global] Instance M_bind : MBind M := fun A B f m s =>
  match m s with
  | (Returned a, s') => f a s'
  | (Exited code, s') => (Exited code, s')
  end.

Definition gets {A : Type} (f : process -> A) : M A :=
  fun s => (Returned (f s), s).

Definition emit (e : event) : M unit :=
  fun s => (Returned tt, mkProcess (vars s) (Items s) (trace s ++ [e])).

(** [if b { body }] *)
Definition when (b : bool) (body : M unit) : M unit :=
  if b then body else mret tt.

(** [os.Exit(code)] *)
Definition os_Exit {A : Type} (code : Z) : M A :=
  fun s => (Exited code, s).

(** [osExit = os.Exit] (line 39); nothing in the package assigns it again. *)
Definition osExit {A : Type} : Z -> M A := os_Exit.

(** *** fmt *)

Definition newline : string := String (Ascii.ascii_of_nat 10) "".

Inductive operand : Type :=
| OString (s : string)
| OError (e : error).

(** The default format of an operand: a string as it is, an error through
    [Error()], a nil error as [<nil>]. *)
Definition format_operand (o : operand) : string :=
  match o with
  | OString s => s
  | OError (Some m) => m
  | OError None => "<nil>"
  end.

(** [fmt.Sprintln]: operands separated by a space, then a newline. *)
Definition fmt_Sprintln (ops : list operand) : string :=
  String.concat " " (map format_operand ops) +:+ newline.

Definition fmt_Println (ops : list operand) : M unit :=
  emit (Print (fmt_Sprintln ops)).

Definition fmt_Print (s : string) : M unit :=
  emit (Print s).

(** [report.Items[key] = v] *)
Definition report_Items_set (key : string) (v : item) : M unit :=
  fun s => (Returned tt,
            mkProcess (vars s) (<[key := v]> (Items s)) (trace s ++ [SetItem key v])).

Definition usage : string :=
  newline +:+
  "Gorilla - Munki-like Application Management for Windows" +:+ newline +:+
  "https://github.com/1dustindavis/gorilla" +:+ newline +:+
  newline +:+
  "Usage: gorilla.exe [options]" +:+ newline +:+
  newline +:+
  "Options:" +:+ newline +:+
  "-c, -config         path to configuration file in yaml format" +:+ newline +:+
  "-v, -verbose        enable verbose output" +:+ newline +:+
  "-d, -debug          enable debug output" +:+ newline +:+
  "-b, -build          build catalog files from any files in packages-info" +:+ newline +:+
  "-i, -import         create a package-info file from an installer package" +:+ newline +:+
  "-a, -about          display the version number and other build info" +:+ newline +:+
  "-V, -version        display the version number" +:+ newline +:+
  "-h, -help           display this help message" +:+ newline +:+
  newline.

Section Package.

Variable w : World.

(** The flag defaults (lines 22-36) that [init] registers. *)
Definition configDefault : string :=
  filepath_Join w [os_Getenv w "ProgramData"; "gorilla/config.yaml"].

Definition init_vars : Flags :=
  mkFlags false configDefault false false "" false false false.

(** *** Calls into the collaborators *)

Definition call_flag_Parse : M unit :=
  fun s =>
    match flag_Parse w (vars s) with
    | Returned f => (Returned tt, mkProcess f (Items s) (trace s))
    | Exited code => (Exited code, s)
    end.

Definition call_version_Print : M unit := emit (Print (version_Print w)).

Definition call_version_PrintFull : M unit := emit (Print (version_PrintFull w)).

Definition call_ReadFile (path : string) : M (list byte * error) :=
  emit (ReadFile path) ;; mret (ioutil_ReadFile w path).

(** ** [parseArguments] (lines 110-128) *)

Definition parseArguments : M (string * bool * bool) :=
  call_flag_Parse ;;
  help ← gets (fun s => helpArg (vars s));
  when help (call_version_Print ;; fmt_Print usage ;; osExit 0) ;;
  version ← gets (fun s => versionArg (vars s));
  when version (call_version_Print ;; osExit 0) ;;
  about ← gets (fun s => aboutArg (vars s));
  when about (call_version_PrintFull ;; osExit 0) ;;
  f ← gets vars;
  mret (configArg f, verboseArg f, debugArg f).

(** ** [Get] (lines 131-198) *)

(** Lines 163-166. *)
Definition backfill_URLPackages (cfg : Configuration) : Configuration :=
  if String.eqb (URLPackages cfg) "" then set_URLPackages (URL cfg) cfg else cfg.

(** Lines 168-173. *)
Definition resolve_AppDataPath (cfg : Configuration) : Configuration :=
  if String.eqb (AppDataPath cfg) ""
  then set_AppDataPath (filepath_Join w [os_Getenv w "ProgramData"; "gorilla/"]) cfg
  else set_AppDataPath (filepath_Clean w (AppDataPath cfg)) cfg.

(** Lines 175-178, [// Set the verbosity]. *)
Definition set_verbosity (verbose : bool) (cfg : Configuration) : Configuration :=
  if verbose && negb (Verbose cfg) then set_Verbose true cfg else cfg.

(** Lines 180-184, [// Set the debug and verbose]. *)
Definition set_debug_and_verbose (debug : bool) (cfg : Configuration) : Configuration :=
  if debug && negb (Debug cfg) then set_Verbose true (set_Debug true cfg) else cfg.

(** Lines 186-188. *)
Definition set_build_and_import (f : Flags) (cfg : Configuration) : Configuration :=
  set_ImportArg (importArg f) (set_BuildArg (buildArg f) cfg).

(** Lines 190-191. *)
Definition resolve_CachePath (cfg : Configuration) : Configuration :=
  set_CachePath (filepath_Join w [AppDataPath cfg; "cache"]) cfg.

Definition Get : M Configuration :=
  let cfg := zero_Configuration in
  '(configPath, verbose, debug) ← parseArguments;
  '(configFile, err) ← call_ReadFile configPath;
  when (is_err err)
    (fmt_Println [OString "Unable to read configuration file: "; OError err] ;;
     os_Exit 1) ;;
  let '(cfg, err) := yaml_Unmarshal w configFile cfg in
  when (is_err err)
    (fmt_Println [OString "Unable to parse yaml configuration: "; OError err] ;;
     os_Exit 1) ;;
  when (String.eqb (Manifest cfg) "")
    (fmt_Println [OString "Invalid configuration - Manifest: "; OError err] ;;
     os_Exit 1) ;;
  when (String.eqb (URL cfg) "")
    (fmt_Println [OString "Invalid configuration - URL: "; OError err] ;;
     os_Exit 1) ;;
  let cfg := backfill_URLPackages cfg in
  let cfg := resolve_AppDataPath cfg in
  let cfg := set_verbosity verbose cfg in
  let cfg := set_debug_and_verbose debug cfg in
  f ← gets vars;
  let cfg := set_build_and_import f cfg in
  let cfg := resolve_CachePath cfg in
  report_Items_set "Manifest" (ItemString (Manifest cfg)) ;;
  report_Items_set "Catalog" (ItemStrings (Catalogs cfg)) ;;
  mret cfg.

End Package.

Arguments Get w s : rename.
Arguments parseArguments w s : rename.

(** ** Observations on traces *)

(** The texts printed, in order. *)
Fixpoint printed (tr : list event) : list string :=
  match tr with
  | [] => []
  | Print text :: tr' => text :: printed tr'
  | _ :: tr' => printed tr'
  end.

(** The files read, in order. *)
Fixpoint files_read (tr : list event) : list string :=
  match tr with
  | [] => []
  | ReadFile path :: tr' => path :: files_read tr'
  | _ :: tr' => files_read tr'
  end.

(** The writes to the report sink, in order. *)
Fixpoint sink_writes (tr : list event) : list (string * item) :=
  match tr with
  | [] => []
  | SetItem key v :: tr' => (key, v) :: sink_writes tr'
  | _ :: tr' => sink_writes tr'
  end.

(** [mentions word text]: [word] occurs in [text]. *)
Fixpoint mentions (word text : string) : bool :=
  String.prefix word text ||
  match text with
  | EmptyString => false
  | String _ rest => mentions word rest
  end.

(** ** The path of [Get] through the file *)

(** No flag that ends the process in [parseArguments] is set. *)
Definition no_terminal_flag (f : Flags) : Prop :=
  helpArg f = false /\ versionArg f = false /\ aboutArg f = false.

(** [Get], started in [s], gets past argument parsing with the flag values
    [f], reads the bytes [b] from the configuration file, and the decoder
    turns them into [doc] without an error. *)
Definition deserializes (w : World) (s : process) (f : Flags) (b : list byte)
    (doc : Configuration) : Prop :=
  flag_Parse w (vars s) = Returned f /\
  no_terminal_flag f /\
  ioutil_ReadFile w (configArg f) = (b, None) /\
  yaml_Unmarshal w b zero_Configuration = (doc, None).

(** What lines 163-191 make of a validated document. *)
Definition resolve (w : World) (f : Flags) (doc : Configuration) : Configuration :=
  resolve_CachePath w
    (set_build_and_import f
       (set_debug_and_verbose (debugArg f)
          (set_verbosity (verboseArg f)
             (resolve_AppDataPath w (backfill_URLPackages doc))))).

Definition Manifest_line : string :=
  fmt_Sprintln [OString "Invalid configuration - Manifest: "; OError None].

Definition URL_line : string :=
  fmt_Sprintln [OString "Invalid configuration - URL: "; OError None].

(** ** A small world to run the package in

    The command line parses to [cli]; every path holds [content]; the
    decoder leaves its target alone on empty input, fills it with [doc] on
    [content], and rejects anything else. Paths are joined with a slash. *)
Module Fixture.

Fixpoint bytes_eqb (a b : list byte) : bool :=
  match a, b with
  | [], [] => true
  | x :: a', y :: b' => Byte.eqb x y && bytes_eqb a' b'
  | _, _ => false
  end.

Fixpoint strip_slash (p : string) : string :=
  match p with
  | EmptyString => EmptyString
  | String c rest =>
      if String.eqb rest "/" then String c EmptyString
      else String c (strip_slash rest)
  end.

Definition join (elems : list string) : string :=
  String.concat "/" (map strip_slash (filter (fun e => e <> "") elems)).

Definition getenv (name : string) : string :=
  if String.eqb name "ProgramData" then "/ProgramData" else "".

Definition unmarshal (content : list byte) (doc : Configuration)
    (b : list byte) (c : Configuration) : Configuration * error :=
  match b with
  | [] => (c, None)
  | _ => if bytes_eqb b content then (doc, None)
         else (c, Some "yaml: unmarshal errors")
  end.

Definition world (cli : Flags) (content : list byte) (doc : Configuration) : World :=
  mkWorld getenv join strip_slash
    (fun _ => Returned cli)
    (fun _ => (content, None))
    (unmarshal content doc)
    "gorilla 1.0" "gorilla 1.0 (full)".

Definition flags (verbose debug : bool) : Flags :=
  mkFlags false "/ProgramData/gorilla/config.yaml" debug false "" false verbose false.

(** A document with the two required fields and the given flags. *)
Definition doc (verbose debug : bool) : Configuration :=
  mkConfiguration "" "" "" false "" ["production"] debug "" "site_default" "" false
    "" "" "" "https://repo.example.com" "" verbose.

(** The text of the file that [doc verbose debug] stands for. *)
Definition yaml_text (verbose debug : bool) : string :=
  "manifest: site_default" +:+ newline +:+
  "url: https://repo.example.com" +:+ newline +:+
  "catalogs:" +:+ newline +:+
  "  - production" +:+ newline +:+
  (if debug then "debug: true" +:+ newline else "") +:+
  (if verbose then "verbose: true" +:+ newline else "").

Definition content (verbose debug : bool) : list byte :=
  String.list_byte_of_string (yaml_text verbose debug).

Definition start (w : World) : process :=
  mkProcess (init_vars w) ∅ [].

End Fixture.

(** Worlds and documents the statements below are run on. *)
Module Run.

(** No override on the command line; the file has the required fields. *)
Definition plain : World :=
  Fixture.world (Fixture.flags false false) (Fixture.content false false) (Fixture.doc false false).

(** [-debug] on the command line; the file has [debug: true] and no
    [verbose]. *)
Definition debug_twice : World :=
  Fixture.world (Fixture.flags false true) (Fixture.content false true) (Fixture.doc false true).

(** The configuration file is empty. *)
Definition empty_file : World :=
  Fixture.world (Fixture.flags false false) [] zero_Configuration.

(** What [Get] returns in [plain], and the process it leaves. *)
Definition plain_cfg : Configuration :=
  mkConfiguration "/ProgramData/gorilla" "" "" false "/ProgramData/gorilla/cache"
    ["production"] false "" "site_default" "" false "" "" ""
    "https://repo.example.com" "https://repo.example.com" false.

Definition plain_end : process :=
  mkProcess (Fixture.flags false false)
    (<["Catalog" := ItemStrings ["production"]]>
       (<["Manifest" := ItemString "site_default"]> ∅))
    [ReadFile "/ProgramData/gorilla/config.yaml";
     SetItem "Manifest" (ItemString "site_default");
     SetItem "Catalog" (ItemStrings ["production"])].

(** [-help] on the command line. *)
Definition help_flags : Flags :=
  mkFlags false "/ProgramData/gorilla/config.yaml" false false "" true false false.

Definition help : World :=
  Fixture.world help_flags (Fixture.content false false) (Fixture.doc false false).

End Run.

(** The specification's reading of the two validation failures: each one,
    whenever its field is empty, ends the process with code 1 and prints a
    line that names the field. *)
Definition each_missing_field_named : Prop :=
  forall (w : World) (s : process) (f : Flags) (b : list byte) (doc : Configuration),
    deserializes w s f b doc ->
    (Manifest doc = "" ->
     exists s', Get w s = (Exited 1, s') /\
       existsb (mentions "Manifest") (printed (trace s')) = true) /\
    (URL doc = "" ->
     exists s', Get w s = (Exited 1, s') /\
       existsb (mentions "URL") (printed (trace s')) = true).

(** ** [init] (lines 81-108)

    [flag.BoolVar(p, name, value, usage)] and [flag.StringVar] of the
    standard library store [value] in [*p] and then bind [name] in the
    flag set of the command line; binding a name that is already bound
    panics, which is [None] here. *)

(** The variables whose address [init] hands to the flag package. *)
Inductive bool_var : Type :=
| ref_aboutArg
| ref_debugArg
| ref_buildArg
| ref_helpArg
| ref_verboseArg
| ref_versionArg.

Inductive string_var : Type :=
| ref_configArg
| ref_importArg.

(** [*p = v] *)
Definition store_bool (p : bool_var) (v : bool) (f : Flags) : Flags :=
  match p with
  | ref_aboutArg =>
      mkFlags v (configArg f) (debugArg f) (buildArg f) (importArg f)
        (helpArg f) (verboseArg f) (versionArg f)
  | ref_debugArg =>
      mkFlags (aboutArg f) (configArg f) v (buildArg f) (importArg f)
        (helpArg f) (verboseArg f) (versionArg f)
  | ref_buildArg =>
      mkFlags (aboutArg f) (configArg f) (debugArg f) v (importArg f)
        (helpArg f) (verboseArg f) (versionArg f)
  | ref_helpArg =>
      mkFlags (aboutArg f) (configArg f) (debugArg f) (buildArg f) (importArg f)
        v (verboseArg f) (versionArg f)
  | ref_verboseArg =>
      mkFlags (aboutArg f) (configArg f) (debugArg f) (buildArg f) (importArg f)
        (helpArg f) v (versionArg f)
  | ref_versionArg =>
      mkFlags (aboutArg f) (configArg f) (debugArg f) (buildArg f) (importArg f)
        (helpArg f) (verboseArg f) v
  end.

Definition store_string (p : string_var) (v : string) (f : Flags) : Flags :=
  match p with
  | ref_configArg =>
      mkFlags (aboutArg f) v (debugArg f) (buildArg f) (importArg f)
        (helpArg f) (verboseArg f) (versionArg f)
  | ref_importArg =>
      mkFlags (aboutArg f) (configArg f) (debugArg f) (buildArg f) v
        (helpArg f) (verboseArg f) (versionArg f)
  end.

(** What a name of the flag set stands for: a variable and its default. *)
Inductive flag_binding : Type :=
| BoolFlag (p : bool_var) (value : bool)
| StringFlag (p : string_var) (value : string).

Record flag_state : Type := mkFlagState {
  flag_vars : Flags;
  formal : gmap string flag_binding
}.

Definition bind_flag (name : string) (b : flag_binding) (st : flag_state)
    : option flag_state :=
  match formal st !! name with
  | Some _ => None
  | None => Some (mkFlagState (flag_vars st) (<[name := b]> (formal st)))
  end.

Definition flag_BoolVar (p : bool_var) (name : string) (value : bool)
    (st : flag_state) : option flag_state :=
  bind_flag name (BoolFlag p value)
    (mkFlagState (store_bool p value (flag_vars st)) (formal st)).

Definition flag_StringVar (p : string_var) (name : string) (value : string)
    (st : flag_state) : option flag_state :=
  bind_flag name (StringFlag p value)
    (mkFlagState (store_string p value (flag_vars st)) (formal st)).

(** Lines 22-36. *)
Definition aboutDefault : bool := false.
Definition debugDefault : bool := false.
Definition buildDefault : bool := false.
Definition importDefault : string := "".
Definition helpDefault : bool := false.
Definition verboseDefault : bool := false.
Definition versionDefault : bool := false.

Definition init (w : World) (st : flag_state) : option flag_state :=
  st ← flag_BoolVar ref_aboutArg "about" aboutDefault st;
  st ← flag_BoolVar ref_aboutArg "a" aboutDefault st;
  st ← flag_StringVar ref_configArg "config" (configDefault w) st;
  st ← flag_StringVar ref_configArg "c" (configDefault w) st;
  st ← flag_BoolVar ref_debugArg "debug" debugDefault st;
  st ← flag_BoolVar ref_debugArg "d" debugDefault st;
  st ← flag_BoolVar ref_buildArg "build" buildDefault st;
  st ← flag_BoolVar ref_buildArg "b" buildDefault st;
  st ← flag_StringVar ref_importArg "import" importDefault st;
  st ← flag_StringVar ref_importArg "i" importDefault st;
  st ← flag_BoolVar ref_helpArg "help" helpDefault st;
  st ← flag_BoolVar ref_helpArg "h" helpDefault st;
  st ← flag_BoolVar ref_verboseArg "verbose" verboseDefault st;
  st ← flag_BoolVar ref_verboseArg "v" verboseDefault st;
  st ← flag_BoolVar ref_versionArg "version" versionDefault st;
  flag_BoolVar ref_versionArg "V" versionDefault st.

(** The options as the [usage] text lists them (lines 49-56): the short
    form, then the long one. *)
Definition usage_options : list (string * string) :=
  [("c", "config"); ("v", "verbose"); ("d", "debug"); ("b", "build");
   ("i", "import"); ("a", "about"); ("V", "version"); ("h", "help")].

(** ** The ways [Get] ends *)

(** What [parseArguments] prints when a flag that ends the process is set;
    the tests of lines 113, 118 and 122 in their order. *)
Definition terminal_texts (w : World) (f : Flags) : option (list string) :=
  if helpArg f then Some [version_Print w; usage]
  else if versionArg f then Some [version_Print w]
  else if aboutArg f then Some [version_PrintFull w]
  else None.

Definition read_error_line (m : string) : string :=
  fmt_Sprintln [OString "Unable to read configuration file: "; OError (Some m)].

Definition decode_error_line (m : string) : string :=
  fmt_Sprintln [OString "Unable to parse yaml configuration: "; OError (Some m)].

(** [Get_outcome w s r s']: started in [s], [Get] ends with [r] in [s'].
    One constructor for each place where [Get] can stop. *)
Inductive Get_outcome (w : World) (s : process)
    : result Configuration -> process -> Prop :=
| usage_error (code : Z) :
    flag_Parse w (vars s) = Exited code ->
    Get_outcome w s (Exited code) s
| terminal_flag (f : Flags) (texts : list string) :
    flag_Parse w (vars s) = Returned f ->
    terminal_texts w f = Some texts ->
    Get_outcome w s (Exited 0)
      (mkProcess f (Items s) (trace s ++ map Print texts))
| read_error (f : Flags) (b : list byte) (m : string) :
    flag_Parse w (vars s) = Returned f ->
    no_terminal_flag f ->
    ioutil_ReadFile w (configArg f) = (b, Some m) ->
    Get_outcome w s (Exited 1)
      (mkProcess f (Items s)
         (trace s ++ [ReadFile (configArg f); Print (read_error_line m)]))
| decode_error (f : Flags) (b : list byte) (doc : Configuration) (m : string) :
    flag_Parse w (vars s) = Returned f ->
    no_terminal_flag f ->
    ioutil_ReadFile w (configArg f) = (b, None) ->
    yaml_Unmarshal w b zero_Configuration = (doc, Some m) ->
    Get_outcome w s (Exited 1)
      (mkProcess f (Items s)
         (trace s ++ [ReadFile (configArg f); Print (decode_error_line m)]))
| missing_Manifest (f : Flags) (b : list byte) (doc : Configuration) :
    deserializes w s f b doc ->
    Manifest doc = "" ->
    Get_outcome w s (Exited 1)
      (mkProcess f (Items s)
         (trace s ++ [ReadFile (configArg f); Print Manifest_line]))
| missing_URL (f : Flags) (b : list byte) (doc : Configuration) :
    deserializes w s f b doc ->
    Manifest doc <> "" ->
    URL doc = "" ->
    Get_outcome w s (Exited 1)
      (mkProcess f (Items s)
         (trace s ++ [ReadFile (configArg f); Print URL_line]))
| resolved (f : Flags) (b : list byte) (doc : Configuration) :
    deserializes w s f b doc ->
    Manifest doc <> "" ->
    URL doc <> "" ->
    Get_outcome w s (Returned (resolve w f doc))
      (mkProcess f
         (<["Catalog" := ItemStrings (Catalogs doc)]>
            (<["Manifest" := ItemString (Manifest doc)]> (Items s)))
         (trace s ++ [ReadFile (configArg f);
                      SetItem "Manifest" (ItemString (Manifest doc));
                      SetItem "Catalog" (ItemStrings (Catalogs doc))])).

(** Worlds for the failure paths. *)
Module Failing.

(** The configuration file cannot be read. *)
Definition unreadable : World :=
  mkWorld Fixture.getenv Fixture.join Fixture.strip_slash
    (fun _ => Returned (Fixture.flags false false))
    (fun _ => ([], Some "open /ProgramData/gorilla/config.yaml: no such file"))
    (Fixture.unmarshal [] zero_Configuration)
    "gorilla 1.0" "gorilla 1.0 (full)".

(** The file holds text that the decoder rejects. *)
Definition garbage : list byte := String.list_byte_of_string "manifest: [".

Definition malformed : World :=
  mkWorld Fixture.getenv Fixture.join Fixture.strip_slash
    (fun _ => Returned (Fixture.flags false false))
    (fun _ => (garbage, None))
    (Fixture.unmarshal (Fixture.content false false) (Fixture.doc false false))
    "gorilla 1.0" "gorilla 1.0 (full)".

End Failing.

(** A run with [-build] and [-import] on the command line, over a document
    in which the decoder has set [BuildArg], [ImportArg] and the
    credentials. *)
Module Build.

Definition flags : Flags :=
  mkFlags false "/ProgramData/gorilla/config.yaml" false true "C:\pkg\setup.msi"
    false false false.

Definition doc : Configuration :=
  mkConfiguration "" "pizzaisyummy" "GorillaRepoUser" false "" ["production"] false
    "ignored.msi" "site_default" "" false "" "" "" "https://repo.example.com" ""
    false.

Definition world : World :=
  Fixture.world flags (Fixture.content false false) doc.

End Build.

(** The names [init] binds when none is bound before. *)
Definition names_bound_by_init (w : World) : gmap string flag_binding :=
  match init w (mkFlagState (init_vars w) ∅) with
  | Some st => formal st
  | None => ∅
  end.

(** ** [yaml.Unmarshal] on a file without content

    The decoder, gopkg.in/yaml.v2, is a library outside the package. This
    is the part of its [Unmarshal] that an input without any token takes.
    [newParser] puts a single line break in the place of an empty input.
    The scanner, on its way to the next token, skips spaces, line breaks
    and comments (from a [#] to the end of the line). When that takes it to
    the end of the input, the first event after the start of the stream is
    its end: [parse] returns no node, nothing is stored through the target
    pointer, no type error is collected, and [Unmarshal] returns nil. An
    input in which the scanner finds something else is left to
    [decode_document]. *)
Module yaml_v2.

Definition is_break (c : byte) : bool :=
  Byte.eqb c x0a || Byte.eqb c x0d.

(** What is left of the input when the scanner stops skipping;
    [in_comment] says that a [#] has been seen on the current line. *)
Fixpoint scan_to_next_token (in_comment : bool) (b : list byte) : list byte :=
  match b with
  | [] => []
  | c :: rest =>
      if is_break c then scan_to_next_token false rest
      else if in_comment then scan_to_next_token true rest
      else if Byte.eqb c x20 then scan_to_next_token false rest
      else if Byte.eqb c x23 then scan_to_next_token true rest
      else b
  end.

Definition newParser (b : list byte) : list byte :=
  match b with
  | [] => [x0a]
  | _ :: _ => b
  end.

Definition Unmarshal
    (decode_document : list byte -> Configuration -> Configuration * error)
    (b : list byte) (c : Configuration) : Configuration * error :=
  match scan_to_next_token false (newParser b) with
  | [] => (c, None)
  | _ :: _ => decode_document b c
  end.

(** The world [w] with this [Unmarshal] as its decoder; what [w] itself
    decodes is kept for the inputs that hold a token. *)
Definition world (w : World) : World :=
  mkWorld (os_Getenv w) (filepath_Join w) (filepath_Clean w) (flag_Parse w)
    (ioutil_ReadFile w) (Unmarshal (yaml_Unmarshal w))
    (version_Print w) (version_PrintFull w).


End yaml_v2.

(** * Properties *)

(** The scenario of the specification: only [manifest] and [url] in the
    file, no overrides on the command line. *)
Example Get_scenario_defaults :
  let w := Fixture.world (Fixture.flags false false) (Fixture.content false false) (Fixture.doc false false) in
  exists cfg s', Get w (Fixture.start w) = (Returned cfg, s') /\
    URLPackages cfg = "https://repo.example.com" /\
    Verbose cfg = false /\ Debug cfg = false /\
    CachePath cfg = "/ProgramData/gorilla/cache" /\
    trace s' = [ReadFile "/ProgramData/gorilla/config.yaml";
                SetItem "Manifest" (ItemString "site_default");
                SetItem "Catalog" (ItemStrings ["production"])] /\
    Items s' !! "Manifest" = Some (ItemString "site_default").
Proof. do 2 eexists. split; [vm_compute; reflexivity|]. repeat split. Qed.

(** The same document with [-debug] on the command line. *)
Example Get_scenario_cli_debug :
  let w := Fixture.world (Fixture.flags false true) (Fixture.content false false) (Fixture.doc false false) in
  exists cfg s', Get w (Fixture.start w) = (Returned cfg, s') /\
    Debug cfg = true /\ Verbose cfg = true.
Proof. do 2 eexists. split; [vm_compute; reflexivity|]. repeat split. Qed.

(** ** Running the computations *)

Ltac unfold_M :=
  unfold call_flag_Parse, call_version_Print, call_version_PrintFull,
    call_ReadFile, fmt_Println, fmt_Print, report_Items_set, osExit, os_Exit,
    emit, gets, when, mbind, M_bind, mret, M_ret in *.

Lemma app_snoc2 {A : Type} (l : list A) (a b : A) :
  (l ++ [a]) ++ [b] = l ++ [a; b].
Proof. by rewrite <- app_assoc. Qed.

Lemma app_snoc3 {A : Type} (l : list A) (a b c : A) :
  ((l ++ [a]) ++ [b]) ++ [c] = l ++ [a; b; c].
Proof. by rewrite <- !app_assoc. Qed.

Lemma eqb_empty_true (x : string) : x = "" -> String.eqb x "" = true.
Proof. intros ->. reflexivity. Qed.

Lemma eqb_empty_false (x : string) : x <> "" -> String.eqb x "" = false.
Proof. intros H. by apply String.eqb_neq. Qed.

Section Paths.

Variable w : World.
Variable s : process.
Variable f : Flags.

Hypothesis parsed : flag_Parse w (vars s) = Returned f.

(** [-help] comes first: version line, usage text, exit 0. *)
Lemma parseArguments_help :
  helpArg f = true ->
  parseArguments w s =
    (Exited 0, mkProcess f (Items s) (trace s ++ [Print (version_Print w); Print usage])).
Proof.
  intros Hh. unfold parseArguments. unfold_M. rewrite parsed. cbn.
  rewrite Hh. cbn. by rewrite app_snoc2.
Qed.

Lemma parseArguments_version :
  helpArg f = false -> versionArg f = true ->
  parseArguments w s =
    (Exited 0, mkProcess f (Items s) (trace s ++ [Print (version_Print w)])).
Proof.
  intros Hh Hv. unfold parseArguments. unfold_M. rewrite parsed. cbn.
  rewrite Hh. cbn. rewrite Hv. reflexivity.
Qed.

Lemma parseArguments_about :
  helpArg f = false -> versionArg f = false -> aboutArg f = true ->
  parseArguments w s =
    (Exited 0, mkProcess f (Items s) (trace s ++ [Print (version_PrintFull w)])).
Proof.
  intros Hh Hv Ha. unfold parseArguments. unfold_M. rewrite parsed. cbn.
  rewrite Hh. cbn. rewrite Hv. cbn. rewrite Ha. reflexivity.
Qed.

Lemma parseArguments_returns :
  no_terminal_flag f ->
  parseArguments w s =
    (Returned (configArg f, verboseArg f, debugArg f),
     mkProcess f (Items s) (trace s)).
Proof.
  intros (Hh & Hv & Ha). unfold parseArguments. unfold_M. rewrite parsed. cbn.
  rewrite Hh. cbn. rewrite Hv. cbn. rewrite Ha. reflexivity.
Qed.

(** An exit in [parseArguments] is an exit of [Get], in the same state. *)
Lemma Get_exits_with_parseArguments (code : Z) (s' : process) :
  parseArguments w s = (Exited code, s') -> Get w s = (Exited code, s').
Proof.
  intros H. unfold Get. unfold mbind at 1. unfold M_bind. by rewrite H.
Qed.

Lemma Get_after_parseArguments :
  no_terminal_flag f ->
  Get w s =
    (let s1 := mkProcess f (Items s) (trace s ++ [ReadFile (configArg f)]) in
     let '(configFile, err) := ioutil_ReadFile w (configArg f) in
     if is_err err
     then (Exited 1,
           mkProcess f (Items s)
             (trace s ++ [ReadFile (configArg f);
                          Print (fmt_Sprintln [OString "Unable to read configuration file: "; OError err])]))
     else
       let '(cfg, err) := yaml_Unmarshal w configFile zero_Configuration in
       if is_err err
       then (Exited 1,
             mkProcess f (Items s)
               (trace s ++ [ReadFile (configArg f);
                            Print (fmt_Sprintln [OString "Unable to parse yaml configuration: "; OError err])]))
       else if String.eqb (Manifest cfg) ""
       then (Exited 1,
             mkProcess f (Items s)
               (trace s ++ [ReadFile (configArg f);
                            Print (fmt_Sprintln [OString "Invalid configuration - Manifest: "; OError err])]))
       else if String.eqb (URL cfg) ""
       then (Exited 1,
             mkProcess f (Items s)
               (trace s ++ [ReadFile (configArg f);
                            Print (fmt_Sprintln [OString "Invalid configuration - URL: "; OError err])]))
       else
         let r := resolve w f cfg in
         (Returned r,
          mkProcess f
            (<["Catalog" := ItemStrings (Catalogs r)]>
               (<["Manifest" := ItemString (Manifest r)]> (Items s)))
            (trace s ++ [ReadFile (configArg f);
                         SetItem "Manifest" (ItemString (Manifest r));
                         SetItem "Catalog" (ItemStrings (Catalogs r))]))).
Proof.
  intros Hnt. unfold Get. unfold mbind at 1. unfold M_bind at 1.
  rewrite (parseArguments_returns Hnt). unfold_M. cbn.
  destruct (ioutil_ReadFile w (configArg f)) as [configFile err].
  destruct err as [m|]; cbn; [by rewrite app_snoc2|].
  destruct (yaml_Unmarshal w configFile zero_Configuration) as [cfg err].
  destruct err as [m|]; cbn; [by rewrite app_snoc2|].
  destruct (String.eqb (Manifest cfg) ""); cbn; [by rewrite app_snoc2|].
  destruct (String.eqb (URL cfg) ""); cbn; [by rewrite app_snoc2|].
  by rewrite app_snoc3.
Qed.

End Paths.

(** ** What [resolve] does to each field *)

Section Resolve.

Variable w : World.
Variable f : Flags.
Variable doc : Configuration.

Lemma resolve_Manifest : Manifest (resolve w f doc) = Manifest doc.
Proof.
  unfold resolve, resolve_CachePath, set_build_and_import,
    set_debug_and_verbose, set_verbosity, resolve_AppDataPath,
    backfill_URLPackages.
  repeat (case_match; cbn); reflexivity.
Qed.

Lemma resolve_URL : URL (resolve w f doc) = URL doc.
Proof.
  unfold resolve, resolve_CachePath, set_build_and_import,
    set_debug_and_verbose, set_verbosity, resolve_AppDataPath,
    backfill_URLPackages.
  repeat (case_match; cbn); reflexivity.
Qed.

Lemma resolve_Catalogs : Catalogs (resolve w f doc) = Catalogs doc.
Proof.
  unfold resolve, resolve_CachePath, set_build_and_import,
    set_debug_and_verbose, set_verbosity, resolve_AppDataPath,
    backfill_URLPackages.
  repeat (case_match; cbn); reflexivity.
Qed.

Lemma resolve_URLPackages :
  URLPackages (resolve w f doc) =
    if String.eqb (URLPackages doc) "" then URL doc else URLPackages doc.
Proof.
  unfold resolve, resolve_CachePath, set_build_and_import,
    set_debug_and_verbose, set_verbosity, resolve_AppDataPath,
    backfill_URLPackages.
  destruct (String.eqb (URLPackages doc) ""); repeat (case_match; cbn); reflexivity.
Qed.

Lemma resolve_AppDataPath_eq :
  AppDataPath (resolve w f doc) =
    if String.eqb (AppDataPath doc) ""
    then filepath_Join w [os_Getenv w "ProgramData"; "gorilla/"]
    else filepath_Clean w (AppDataPath doc).
Proof.
  unfold resolve, resolve_CachePath, set_build_and_import,
    set_debug_and_verbose, set_verbosity, resolve_AppDataPath,
    backfill_URLPackages.
  destruct (String.eqb (URLPackages doc) ""); cbn;
    destruct (String.eqb (AppDataPath doc) ""); cbn;
    repeat (case_match; cbn); reflexivity.
Qed.

Lemma resolve_CachePath_eq :
  CachePath (resolve w f doc) =
    filepath_Join w [AppDataPath (resolve w f doc); "cache"].
Proof. reflexivity. Qed.

Lemma set_verbosity_Verbose (verbose : bool) (c : Configuration) :
  Verbose (set_verbosity verbose c) = Verbose c || verbose.
Proof.
  unfold set_verbosity.
  destruct verbose, (Verbose c) eqn:E; cbn; by rewrite ?E.
Qed.

Lemma set_verbosity_Debug (verbose : bool) (c : Configuration) :
  Debug (set_verbosity verbose c) = Debug c.
Proof. unfold set_verbosity. by case_match. Qed.

Lemma set_debug_and_verbose_Debug (debug : bool) (c : Configuration) :
  Debug (set_debug_and_verbose debug c) = Debug c || debug.
Proof.
  unfold set_debug_and_verbose.
  destruct debug, (Debug c) eqn:E; cbn; by rewrite ?E.
Qed.

Lemma set_debug_and_verbose_Verbose (debug : bool) (c : Configuration) :
  Verbose (set_debug_and_verbose debug c) = Verbose c || (debug && negb (Debug c)).
Proof.
  unfold set_debug_and_verbose.
  destruct debug, (Debug c) eqn:E, (Verbose c) eqn:E'; cbn; by rewrite ?E'.
Qed.

Lemma before_merge_Verbose :
  Verbose (resolve_AppDataPath w (backfill_URLPackages doc)) = Verbose doc.
Proof.
  unfold resolve_AppDataPath, backfill_URLPackages.
  repeat (case_match; cbn); reflexivity.
Qed.

Lemma before_merge_Debug :
  Debug (resolve_AppDataPath w (backfill_URLPackages doc)) = Debug doc.
Proof.
  unfold resolve_AppDataPath, backfill_URLPackages.
  repeat (case_match; cbn); reflexivity.
Qed.

Lemma resolve_Debug : Debug (resolve w f doc) = Debug doc || debugArg f.
Proof.
  transitivity (Debug (set_debug_and_verbose (debugArg f)
                  (set_verbosity (verboseArg f)
                     (resolve_AppDataPath w (backfill_URLPackages doc))))).
  { reflexivity. }
  by rewrite set_debug_and_verbose_Debug, set_verbosity_Debug, before_merge_Debug.
Qed.

Lemma resolve_Verbose :
  Verbose (resolve w f doc) =
    (Verbose doc || verboseArg f) || (debugArg f && negb (Debug doc)).
Proof.
  transitivity (Verbose (set_debug_and_verbose (debugArg f)
                  (set_verbosity (verboseArg f)
                     (resolve_AppDataPath w (backfill_URLPackages doc))))).
  { reflexivity. }
  by rewrite set_debug_and_verbose_Verbose, set_verbosity_Verbose,
    set_verbosity_Debug, before_merge_Verbose, before_merge_Debug.
Qed.

End Resolve.

(** ** The three ways past deserialization *)

Section Validation.

Variable w : World.
Variable s : process.
Variable f : Flags.
Variable b : list byte.
Variable doc : Configuration.

Hypothesis reached : deserializes w s f b doc.

Lemma Get_missing_Manifest :
  Manifest doc = "" ->
  Get w s =
    (Exited 1,
     mkProcess f (Items s)
       (trace s ++ [ReadFile (configArg f); Print Manifest_line])).
Proof.
  destruct reached as (Hp & Hnt & Hr & Hy). intros Hm.
  rewrite (Get_after_parseArguments w s f Hp Hnt), Hr. cbn. rewrite Hy. cbn.
  by rewrite (eqb_empty_true _ Hm).
Qed.

Lemma Get_missing_URL :
  Manifest doc <> "" -> URL doc = "" ->
  Get w s =
    (Exited 1,
     mkProcess f (Items s)
       (trace s ++ [ReadFile (configArg f); Print URL_line])).
Proof.
  destruct reached as (Hp & Hnt & Hr & Hy). intros Hm Hu.
  rewrite (Get_after_parseArguments w s f Hp Hnt), Hr. cbn. rewrite Hy. cbn.
  by rewrite (eqb_empty_false _ Hm), (eqb_empty_true _ Hu).
Qed.

Lemma Get_success :
  Manifest doc <> "" -> URL doc <> "" ->
  Get w s =
    (Returned (resolve w f doc),
     mkProcess f
       (<["Catalog" := ItemStrings (Catalogs doc)]>
          (<["Manifest" := ItemString (Manifest doc)]> (Items s)))
       (trace s ++ [ReadFile (configArg f);
                    SetItem "Manifest" (ItemString (Manifest doc));
                    SetItem "Catalog" (ItemStrings (Catalogs doc))])).
Proof.
  destruct reached as (Hp & Hnt & Hr & Hy). intros Hm Hu.
  rewrite (Get_after_parseArguments w s f Hp Hnt), Hr. cbn -[resolve].
  rewrite Hy. cbn -[resolve].
  rewrite (eqb_empty_false _ Hm), (eqb_empty_false _ Hu).
  by rewrite resolve_Manifest, resolve_Catalogs.
Qed.

End Validation.

(** [flag.Parse] itself may end the process; [Get] then ends with it. *)
Lemma parseArguments_usage_error (w : World) (s : process) (code : Z) :
  flag_Parse w (vars s) = Exited code ->
  parseArguments w s = (Exited code, s).
Proof.
  intros H. unfold parseArguments. unfold_M. by rewrite H.
Qed.

(** ** Debug and verbose *)

(** When [Get] returns with [Debug] set and [Verbose] clear: exactly when the
    file set [debug] and neither the file nor the command line set
    [verbose]; the [-debug] flag plays no part. *)
Lemma Get_Debug_without_Verbose (w : World) (s : process) (f : Flags)
    (b : list byte) (doc : Configuration) :
  deserializes w s f b doc -> Manifest doc <> "" -> URL doc <> "" ->
  exists cfg s', Get w s = (Returned cfg, s') /\
    (Debug cfg = true /\ Verbose cfg = false <->
     Debug doc = true /\ Verbose doc = false /\ verboseArg f = false).
Proof.
  intros Hd Hm Hu. eexists _, _. split; [exact (Get_success w s f b doc Hd Hm Hu)|].
  rewrite resolve_Debug, resolve_Verbose.
  destruct (Debug doc), (Verbose doc), (verboseArg f), (debugArg f); cbn; intuition congruence.
Qed.

(** Where the command line turns debug on (the file did not), verbose is
    on as well. *)
Lemma Get_cli_debug_forces_Verbose (w : World) (s : process) (f : Flags)
    (b : list byte) (doc : Configuration) :
  deserializes w s f b doc -> Manifest doc <> "" -> URL doc <> "" ->
  Debug doc = false -> debugArg f = true ->
  exists cfg s', Get w s = (Returned cfg, s') /\
    Debug cfg = true /\ Verbose cfg = true.
Proof.
  intros Hd Hm Hu Hfd Hcd. eexists _, _.
  split; [exact (Get_success w s f b doc Hd Hm Hu)|].
  rewrite resolve_Debug, resolve_Verbose, Hfd, Hcd.
  split; [reflexivity|]. by destruct (Verbose doc), (verboseArg f).
Qed.

(** C1. Debug implies verbose does not hold of what [Get] returns: with
    [debug: true] and no [verbose] in the file, and [-debug] on the command
    line, [Get] returns [Debug = true] and [Verbose = false]. The guard
    [debug && !cfg.Debug] of line 181 skips the assignment
    [cfg.Verbose = true] because the file already set debug. *)
Theorem Get_debug_twice_leaves_Verbose_false :
  exists cfg s',
    Get Run.debug_twice (Fixture.start Run.debug_twice) = (Returned cfg, s') /\
    Debug (Fixture.doc false true) = true /\
    debugArg (Fixture.flags false true) = true /\
    Debug cfg = true /\ Verbose cfg = false.
Proof.
  eexists _, _. split; [vm_compute; reflexivity|]. repeat split.
Qed.

(** ** Required fields *)

(** C2. A document that deserializes and has a non-empty manifest and a
    non-empty url makes [Get] return, and the returned [Manifest] and [URL]
    are the deserialized ones. *)
Theorem Get_returns_Manifest_and_URL (w : World) (s : process) (f : Flags)
    (b : list byte) (doc : Configuration) :
  deserializes w s f b doc -> Manifest doc <> "" -> URL doc <> "" ->
  exists cfg s', Get w s = (Returned cfg, s') /\
    Manifest cfg = Manifest doc /\ URL cfg = URL doc.
Proof.
  intros Hd Hm Hu. eexists _, _.
  split; [exact (Get_success w s f b doc Hd Hm Hu)|].
  split; [apply resolve_Manifest | apply resolve_URL].
Qed.

Lemma Get_returns_Manifest_and_URL_witness :
  deserializes Run.plain (Fixture.start Run.plain) (Fixture.flags false false)
    (Fixture.content false false) (Fixture.doc false false) /\
  exists cfg s', Get Run.plain (Fixture.start Run.plain) = (Returned cfg, s') /\
    Manifest cfg = "site_default" /\ URL cfg = "https://repo.example.com".
Proof.
  assert (Hd : deserializes Run.plain (Fixture.start Run.plain)
                 (Fixture.flags false false) (Fixture.content false false) (Fixture.doc false false))
    by (repeat split).
  split; [exact Hd|].
  apply (Get_returns_Manifest_and_URL _ _ _ _ _ Hd); discriminate.
Defined.

(** C3, as stated, fails: a document with neither manifest nor url ends the
    process at the manifest check, and nothing printed names the URL. *)
Lemma each_missing_field_named_fails : ~ each_missing_field_named.
Proof.
  intros H.
  destruct (H Run.empty_file (Fixture.start Run.empty_file)
              (Fixture.flags false false) [] zero_Configuration) as [_ Hu].
  { repeat split. }
  destruct (Hu eq_refl) as (s' & Hg & Hp).
  vm_compute in Hg. injection Hg as <-. vm_compute in Hp. discriminate.
Qed.

(** C3, amended. When the manifest or the url is empty after
    deserialization, [Get] ends the process with code 1 and returns no
    configuration; it prints one diagnostic line, which names the manifest
    when the manifest is empty, and names the URL when the manifest is
    present and the url is empty. *)
Theorem Get_rejects_missing_required_field (w : World) (s : process) (f : Flags)
    (b : list byte) (doc : Configuration) :
  deserializes w s f b doc ->
  Manifest doc = "" \/ URL doc = "" ->
  exists line,
    Get w s =
      (Exited 1,
       mkProcess f (Items s) (trace s ++ [ReadFile (configArg f); Print line])) /\
    (Manifest doc = "" ->
     line = Manifest_line /\
     mentions "Manifest" line = true /\ mentions "URL" line = false) /\
    (Manifest doc <> "" ->
     line = URL_line /\
     mentions "URL" line = true /\ mentions "Manifest" line = false).
Proof.
  intros Hd Hempty.
  destruct (decide (Manifest doc = "")) as [Hm|Hm].
  - exists Manifest_line. split; [exact (Get_missing_Manifest w s f b doc Hd Hm)|].
    split; [intros _; by vm_compute | intros Hne; contradiction].
  - destruct Hempty as [Hm'|Hu]; [contradiction|].
    exists URL_line. split; [exact (Get_missing_URL w s f b doc Hd Hm Hu)|].
    split; [intros He; contradiction | intros _; by vm_compute].
Qed.

Lemma Get_rejects_missing_required_field_witness :
  deserializes Run.empty_file (Fixture.start Run.empty_file)
    (Fixture.flags false false) [] zero_Configuration /\
  (Manifest zero_Configuration = "" \/ URL zero_Configuration = "") /\
  exists line,
    Get Run.empty_file (Fixture.start Run.empty_file) =
      (Exited 1,
       mkProcess (Fixture.flags false false) ∅
         ([] ++ [ReadFile "/ProgramData/gorilla/config.yaml"; Print line])) /\
    (Manifest zero_Configuration = "" ->
     line = Manifest_line /\
     mentions "Manifest" line = true /\ mentions "URL" line = false) /\
    (Manifest zero_Configuration <> "" ->
     line = URL_line /\
     mentions "URL" line = true /\ mentions "Manifest" line = false).
Proof.
  assert (Hd : deserializes Run.empty_file (Fixture.start Run.empty_file)
                 (Fixture.flags false false) [] zero_Configuration)
    by (repeat split).
  split; [exact Hd|]. split; [left; reflexivity|].
  apply (Get_rejects_missing_required_field _ _ _ _ _ Hd). left. reflexivity.
Defined.

(** ** Defaults *)

(** C4. For a document that passes validation, the returned [URLPackages]
    is the returned [URL] when [url_packages] is empty in the document, and
    the document's [url_packages] otherwise. *)
Theorem Get_URLPackages (w : World) (s : process) (f : Flags)
    (b : list byte) (doc : Configuration) :
  deserializes w s f b doc -> Manifest doc <> "" -> URL doc <> "" ->
  exists cfg s', Get w s = (Returned cfg, s') /\
    (URLPackages doc = "" -> URLPackages cfg = URL cfg) /\
    (URLPackages doc <> "" -> URLPackages cfg = URLPackages doc).
Proof.
  intros Hd Hm Hu. eexists _, _.
  split; [exact (Get_success w s f b doc Hd Hm Hu)|].
  rewrite resolve_URLPackages, resolve_URL. split; intros H.
  - by rewrite (eqb_empty_true _ H).
  - by rewrite (eqb_empty_false _ H).
Qed.

Lemma Get_URLPackages_witness :
  deserializes Run.plain (Fixture.start Run.plain) (Fixture.flags false false)
    (Fixture.content false false) (Fixture.doc false false) /\
  exists cfg s', Get Run.plain (Fixture.start Run.plain) = (Returned cfg, s') /\
    (URLPackages (Fixture.doc false false) = "" -> URLPackages cfg = URL cfg) /\
    (URLPackages (Fixture.doc false false) <> "" ->
     URLPackages cfg = URLPackages (Fixture.doc false false)).
Proof.
  assert (Hd : deserializes Run.plain (Fixture.start Run.plain)
                 (Fixture.flags false false) (Fixture.content false false) (Fixture.doc false false))
    by (repeat split).
  split; [exact Hd|].
  apply (Get_URLPackages _ _ _ _ _ Hd); discriminate.
Defined.

(** C5. For a document that passes validation, the returned [AppDataPath]
    is [filepath.Join(os.Getenv("ProgramData"), "gorilla/")] when
    [app_data_path] is empty in the document and [filepath.Clean] of the
    document's value otherwise; the returned [CachePath] is the returned
    [AppDataPath] joined with [cache]. *)
Theorem Get_AppDataPath_and_CachePath (w : World) (s : process) (f : Flags)
    (b : list byte) (doc : Configuration) :
  deserializes w s f b doc -> Manifest doc <> "" -> URL doc <> "" ->
  exists cfg s', Get w s = (Returned cfg, s') /\
    (AppDataPath doc = "" ->
     AppDataPath cfg = filepath_Join w [os_Getenv w "ProgramData"; "gorilla/"]) /\
    (AppDataPath doc <> "" ->
     AppDataPath cfg = filepath_Clean w (AppDataPath doc)) /\
    CachePath cfg = filepath_Join w [AppDataPath cfg; "cache"].
Proof.
  intros Hd Hm Hu. eexists _, _.
  split; [exact (Get_success w s f b doc Hd Hm Hu)|].
  rewrite resolve_CachePath_eq, resolve_AppDataPath_eq. repeat split; intros H.
  - by rewrite (eqb_empty_true _ H).
  - by rewrite (eqb_empty_false _ H).
Qed.

Lemma Get_AppDataPath_and_CachePath_witness :
  deserializes Run.plain (Fixture.start Run.plain) (Fixture.flags false false)
    (Fixture.content false false) (Fixture.doc false false) /\
  exists cfg s', Get Run.plain (Fixture.start Run.plain) = (Returned cfg, s') /\
    (AppDataPath (Fixture.doc false false) = "" ->
     AppDataPath cfg =
       filepath_Join Run.plain [os_Getenv Run.plain "ProgramData"; "gorilla/"]) /\
    (AppDataPath (Fixture.doc false false) <> "" ->
     AppDataPath cfg = filepath_Clean Run.plain (AppDataPath (Fixture.doc false false))) /\
    CachePath cfg = filepath_Join Run.plain [AppDataPath cfg; "cache"].
Proof.
  assert (Hd : deserializes Run.plain (Fixture.start Run.plain)
                 (Fixture.flags false false) (Fixture.content false false) (Fixture.doc false false))
    by (repeat split).
  split; [exact Hd|].
  apply (Get_AppDataPath_and_CachePath _ _ _ _ _ Hd); discriminate.
Defined.

(** ** Precedence between the file and the command line *)

(** C6. For a document that passes validation, the returned [Debug] is the
    file's debug or the [-debug] flag; [Verbose] after the merge of lines
    175-178, before lines 180-184 run, is the file's verbose or the
    [-verbose] flag, and the returned [Verbose] is that value or the
    adjustment of lines 180-184; so a flag the file sets stays set. *)
Theorem Get_merges_Debug_and_Verbose (w : World) (s : process) (f : Flags)
    (b : list byte) (doc : Configuration) :
  deserializes w s f b doc -> Manifest doc <> "" -> URL doc <> "" ->
  exists cfg s', Get w s = (Returned cfg, s') /\
    Debug cfg = Debug doc || debugArg f /\
    Verbose (set_verbosity (verboseArg f)
               (resolve_AppDataPath w (backfill_URLPackages doc)))
      = Verbose doc || verboseArg f /\
    Verbose cfg =
      (Verbose doc || verboseArg f) || (debugArg f && negb (Debug doc)) /\
    (Debug doc = true -> Debug cfg = true) /\
    (Verbose doc = true -> Verbose cfg = true).
Proof.
  intros Hd Hm Hu. eexists _, _.
  split; [exact (Get_success w s f b doc Hd Hm Hu)|].
  rewrite resolve_Debug, resolve_Verbose, set_verbosity_Verbose, before_merge_Verbose.
  repeat split; by intros ->.
Qed.

Lemma Get_merges_Debug_and_Verbose_witness :
  deserializes Run.debug_twice (Fixture.start Run.debug_twice)
    (Fixture.flags false true) (Fixture.content false true) (Fixture.doc false true) /\
  exists cfg s',
    Get Run.debug_twice (Fixture.start Run.debug_twice) = (Returned cfg, s') /\
    Debug cfg = Debug (Fixture.doc false true) || debugArg (Fixture.flags false true) /\
    Verbose (set_verbosity (verboseArg (Fixture.flags false true))
               (resolve_AppDataPath Run.debug_twice
                  (backfill_URLPackages (Fixture.doc false true))))
      = Verbose (Fixture.doc false true) || verboseArg (Fixture.flags false true) /\
    Verbose cfg =
      (Verbose (Fixture.doc false true) || verboseArg (Fixture.flags false true))
      || (debugArg (Fixture.flags false true) && negb (Debug (Fixture.doc false true))) /\
    (Debug (Fixture.doc false true) = true -> Debug cfg = true) /\
    (Verbose (Fixture.doc false true) = true -> Verbose cfg = true).
Proof.
  assert (Hd : deserializes Run.debug_twice (Fixture.start Run.debug_twice)
                 (Fixture.flags false true) (Fixture.content false true) (Fixture.doc false true))
    by (repeat split).
  split; [exact Hd|].
  apply (Get_merges_Debug_and_Verbose _ _ _ _ _ Hd); discriminate.
Defined.

(** ** The report sink *)

Lemma printed_app (tr1 tr2 : list event) :
  printed (tr1 ++ tr2) = printed tr1 ++ printed tr2.
Proof.
  induction tr1 as [|e tr1 IH]; [reflexivity|].
  destruct e; cbn; by rewrite IH.
Qed.

Lemma files_read_app (tr1 tr2 : list event) :
  files_read (tr1 ++ tr2) = files_read tr1 ++ files_read tr2.
Proof.
  induction tr1 as [|e tr1 IH]; [reflexivity|].
  destruct e; cbn; by rewrite IH.
Qed.

Lemma sink_writes_app (tr1 tr2 : list event) :
  sink_writes (tr1 ++ tr2) = sink_writes tr1 ++ sink_writes tr2.
Proof.
  induction tr1 as [|e tr1 IH]; [reflexivity|].
  destruct e; cbn; by rewrite IH.
Qed.

(** C7. Whatever way [Get] ends: when it returns, the configuration has
    passed validation, the events of the run are the file read followed by
    the two sink writes, [Manifest] and then [Catalog], carrying the
    returned manifest and catalogs, and the sink is the old one with these
    two keys set; when it ends the process, the run wrote nothing to the
    sink and the sink is as it was. *)
Theorem Get_writes_report_on_success_only (w : World) (s s' : process)
    (r : result Configuration) :
  Get w s = (r, s') ->
  exists tr, trace s' = trace s ++ tr /\
    match r with
    | Returned cfg =>
        Manifest cfg <> "" /\ URL cfg <> "" /\
        (exists path,
           tr = [ReadFile path;
                 SetItem "Manifest" (ItemString (Manifest cfg));
                 SetItem "Catalog" (ItemStrings (Catalogs cfg))]) /\
        sink_writes tr = [("Manifest", ItemString (Manifest cfg));
                          ("Catalog", ItemStrings (Catalogs cfg))] /\
        Items s' = <["Catalog" := ItemStrings (Catalogs cfg)]>
                     (<["Manifest" := ItemString (Manifest cfg)]> (Items s))
    | Exited code => sink_writes tr = [] /\ Items s' = Items s
    end.
Proof.
  destruct (flag_Parse w (vars s)) as [f|code] eqn:Hp.
  2:{ rewrite (Get_exits_with_parseArguments w s code s
                 (parseArguments_usage_error w s code Hp)).
      intros [= <- <-]. exists []. by rewrite app_nil_r. }
  destruct (helpArg f) eqn:Hh.
  { rewrite (Get_exits_with_parseArguments w s _ _ (parseArguments_help w s f Hp Hh)).
    intros [= <- <-]. by eexists. }
  destruct (versionArg f) eqn:Hv.
  { rewrite (Get_exits_with_parseArguments w s _ _ (parseArguments_version w s f Hp Hh Hv)).
    intros [= <- <-]. by eexists. }
  destruct (aboutArg f) eqn:Ha.
  { rewrite (Get_exits_with_parseArguments w s _ _ (parseArguments_about w s f Hp Hh Hv Ha)).
    intros [= <- <-]. by eexists. }
  rewrite (Get_after_parseArguments w s f Hp (conj Hh (conj Hv Ha))).
  destruct (ioutil_ReadFile w (configArg f)) as [configFile [m|]]; cbn -[resolve].
  { intros [= <- <-]. by eexists. }
  destruct (yaml_Unmarshal w configFile zero_Configuration) as [doc [m|]]; cbn -[resolve].
  { intros [= <- <-]. by eexists. }
  destruct (String.eqb (Manifest doc) "") eqn:Hm.
  { intros [= <- <-]. by eexists. }
  destruct (String.eqb (URL doc) "") eqn:Hu.
  { intros [= <- <-]. by eexists. }
  intros [= <- <-]. eexists. split; [reflexivity|].
  apply String.eqb_neq in Hm, Hu.
  split; [change (Manifest (resolve w f doc) <> ""); by rewrite resolve_Manifest|].
  split; [change (URL (resolve w f doc) <> ""); by rewrite resolve_URL|].
  split; [by eexists|]. split; reflexivity.
Qed.

Lemma Get_writes_report_on_success_only_witness :
  Get Run.plain (Fixture.start Run.plain) = (Returned Run.plain_cfg, Run.plain_end) /\
  exists tr, trace Run.plain_end = trace (Fixture.start Run.plain) ++ tr /\
    Manifest Run.plain_cfg <> "" /\ URL Run.plain_cfg <> "" /\
    (exists path,
       tr = [ReadFile path;
             SetItem "Manifest" (ItemString (Manifest Run.plain_cfg));
             SetItem "Catalog" (ItemStrings (Catalogs Run.plain_cfg))]) /\
    sink_writes tr = [("Manifest", ItemString (Manifest Run.plain_cfg));
                      ("Catalog", ItemStrings (Catalogs Run.plain_cfg))] /\
    Items Run.plain_end =
      <["Catalog" := ItemStrings (Catalogs Run.plain_cfg)]>
        (<["Manifest" := ItemString (Manifest Run.plain_cfg)]>
           (Items (Fixture.start Run.plain))).
Proof.
  assert (Hg : Get Run.plain (Fixture.start Run.plain)
               = (Returned Run.plain_cfg, Run.plain_end))
    by (vm_compute; reflexivity).
  split; [exact Hg|].
  exact (Get_writes_report_on_success_only _ _ _ _ Hg).
Defined.

(** ** Flags that end the process *)

(** Printing reads no file and writes nothing to the sink. *)
Lemma prints_only (texts : list string) :
  files_read (map Print texts) = [] /\ sink_writes (map Print texts) = [].
Proof.
  induction texts as [|t texts [IH1 IH2]]; [done|]. split; cbn; assumption.
Qed.

(** C8. After [flag.Parse] has returned: with [-help] set,
    [parseArguments] prints the version line and the usage text and exits
    with code 0; else with [-version] set, it prints the version line and
    exits with code 0; else with [-about] set, it prints the full version
    text and exits with code 0. In each of these cases [Get] ends in the
    same state, in which no file has been read and the sink is untouched.
    With none of the three set, [parseArguments] returns the config path,
    verbose and debug, and has printed nothing, read nothing and left the
    sink alone. *)
Theorem parseArguments_terminal_flags (w : World) (s : process) (f : Flags) :
  flag_Parse w (vars s) = Returned f ->
  (helpArg f = true ->
   parseArguments w s =
     (Exited 0,
      mkProcess f (Items s) (trace s ++ [Print (version_Print w); Print usage]))) /\
  (helpArg f = false -> versionArg f = true ->
   parseArguments w s =
     (Exited 0, mkProcess f (Items s) (trace s ++ [Print (version_Print w)]))) /\
  (helpArg f = false -> versionArg f = false -> aboutArg f = true ->
   parseArguments w s =
     (Exited 0, mkProcess f (Items s) (trace s ++ [Print (version_PrintFull w)]))) /\
  (helpArg f = true \/ versionArg f = true \/ aboutArg f = true ->
   exists s',
     parseArguments w s = (Exited 0, s') /\ Get w s = (Exited 0, s') /\
     files_read (trace s') = files_read (trace s) /\
     sink_writes (trace s') = sink_writes (trace s) /\
     Items s' = Items s) /\
  (helpArg f = false -> versionArg f = false -> aboutArg f = false ->
   parseArguments w s =
     (Returned (configArg f, verboseArg f, debugArg f),
      mkProcess f (Items s) (trace s))).
Proof.
  intros Hp.
  split; [exact (parseArguments_help w s f Hp)|].
  split; [exact (parseArguments_version w s f Hp)|].
  split; [exact (parseArguments_about w s f Hp)|].
  split.
  - intros Hany.
    assert (exists texts,
              parseArguments w s =
                (Exited 0, mkProcess f (Items s) (trace s ++ map Print texts)))
      as [texts Hpa].
    { destruct (helpArg f) eqn:Hh.
      { exists [version_Print w; usage]. exact (parseArguments_help w s f Hp Hh). }
      destruct (versionArg f) eqn:Hv.
      { exists [version_Print w]. exact (parseArguments_version w s f Hp Hh Hv). }
      destruct (aboutArg f) eqn:Ha.
      { exists [version_PrintFull w]. exact (parseArguments_about w s f Hp Hh Hv Ha). }
      destruct Hany as [H|[H|H]]; discriminate. }
    eexists. split; [exact Hpa|].
    split; [exact (Get_exits_with_parseArguments w s _ _ Hpa)|]. cbn.
    rewrite files_read_app, sink_writes_app.
    destruct (prints_only texts) as [-> ->].
    by rewrite !app_nil_r.
  - intros Hh Hv Ha.
    exact (parseArguments_returns w s f Hp (conj Hh (conj Hv Ha))).
Qed.

Lemma parseArguments_terminal_flags_witness :
  flag_Parse Run.help (vars (Fixture.start Run.help)) = Returned Run.help_flags /\
  parseArguments Run.help (Fixture.start Run.help) =
    (Exited 0,
     mkProcess Run.help_flags ∅ ([] ++ [Print "gorilla 1.0"; Print usage])).
Proof.
  assert (Hp : flag_Parse Run.help (vars (Fixture.start Run.help))
               = Returned Run.help_flags) by reflexivity.
  split; [exact Hp|].
  exact (proj1 (parseArguments_terminal_flags _ _ _ Hp) eq_refl).
Defined.

(** ** The error printed at the validation failures *)

(** C9. In the missing-manifest and missing-URL branches the operand
    printed after the message is the [err] that [yaml.Unmarshal] returned;
    deserialization succeeded, so it is nil and the line ends in [<nil>]. *)
Theorem Get_validation_prints_Unmarshal_err (w : World) (s : process)
    (f : Flags) (b : list byte) (doc : Configuration) (err : error) :
  flag_Parse w (vars s) = Returned f ->
  no_terminal_flag f ->
  ioutil_ReadFile w (configArg f) = (b, None) ->
  yaml_Unmarshal w b zero_Configuration = (doc, err) ->
  is_err err = false ->
  (Manifest doc = "" ->
   Get w s =
     (Exited 1,
      mkProcess f (Items s)
        (trace s ++
           [ReadFile (configArg f);
            Print (fmt_Sprintln [OString "Invalid configuration - Manifest: ";
                                 OError err])]))) /\
  (Manifest doc <> "" -> URL doc = "" ->
   Get w s =
     (Exited 1,
      mkProcess f (Items s)
        (trace s ++
           [ReadFile (configArg f);
            Print (fmt_Sprintln [OString "Invalid configuration - URL: ";
                                 OError err])]))) /\
  err = None /\
  fmt_Sprintln [OString "Invalid configuration - Manifest: "; OError err]
    = "Invalid configuration - Manifest:  <nil>" +:+ newline /\
  fmt_Sprintln [OString "Invalid configuration - URL: "; OError err]
    = "Invalid configuration - URL:  <nil>" +:+ newline.
Proof.
  intros Hp Hnt Hr Hy He.
  destruct err as [m|]; [discriminate|].
  pose proof (conj Hp (conj Hnt (conj Hr Hy))) as Hd.
  split; [exact (Get_missing_Manifest w s f b doc Hd)|].
  split; [exact (Get_missing_URL w s f b doc Hd)|].
  repeat split.
Qed.

Lemma Get_validation_prints_Unmarshal_err_witness :
  flag_Parse Run.empty_file (vars (Fixture.start Run.empty_file))
    = Returned (Fixture.flags false false) /\
  no_terminal_flag (Fixture.flags false false) /\
  ioutil_ReadFile Run.empty_file (configArg (Fixture.flags false false)) = ([], None) /\
  yaml_Unmarshal Run.empty_file [] zero_Configuration = (zero_Configuration, None) /\
  is_err None = false /\
  Get Run.empty_file (Fixture.start Run.empty_file) =
    (Exited 1,
     mkProcess (Fixture.flags false false) ∅
       ([] ++
          [ReadFile "/ProgramData/gorilla/config.yaml";
           Print (fmt_Sprintln [OString "Invalid configuration - Manifest: ";
                                OError None])])).
Proof.
  assert (Hp : flag_Parse Run.empty_file (vars (Fixture.start Run.empty_file))
               = Returned (Fixture.flags false false)) by reflexivity.
  assert (Hnt : no_terminal_flag (Fixture.flags false false)) by (repeat split).
  assert (Hr : ioutil_ReadFile Run.empty_file (configArg (Fixture.flags false false))
               = ([], None)) by reflexivity.
  assert (Hy : yaml_Unmarshal Run.empty_file [] zero_Configuration
               = (zero_Configuration, None)) by reflexivity.
  assert (He : is_err None = false) by reflexivity.
  repeat (split; [assumption|]).
  exact (proj1 (Get_validation_prints_Unmarshal_err _ _ _ _ _ _ Hp Hnt Hr Hy He) eq_refl).
Defined.

(** ** An empty configuration file *)



Example scan_blank_and_comment_lines :
  yaml_v2.scan_to_next_token false
    (yaml_v2.newParser
       (String.list_byte_of_string
          ("# gorilla" +:+ newline +:+ "   " +:+ newline +:+ "  # no settings")))
  = [].
Proof. reflexivity. Qed.

Example scan_stops_at_a_key :
  yaml_v2.scan_to_next_token false
    (yaml_v2.newParser
       (String.list_byte_of_string ("# gorilla" +:+ newline +:+ "url: u")))
  = String.list_byte_of_string "url: u".
Proof. reflexivity. Qed.



(** * Further properties *)

(** ** Every way [Get] ends *)

Lemma terminal_texts_None (w : World) (f : Flags) :
  terminal_texts w f = None <-> no_terminal_flag f.
Proof.
  unfold terminal_texts, no_terminal_flag.
  destruct (helpArg f), (versionArg f), (aboutArg f);
    split; try discriminate; try done; intros (? & ? & ?); discriminate.
Qed.

Lemma parseArguments_terminal (w : World) (s : process) (f : Flags)
    (texts : list string) :
  flag_Parse w (vars s) = Returned f ->
  terminal_texts w f = Some texts ->
  parseArguments w s =
    (Exited 0, mkProcess f (Items s) (trace s ++ map Print texts)).
Proof.
  intros Hp. unfold terminal_texts.
  destruct (helpArg f) eqn:Hh.
  { intros [= <-]. exact (parseArguments_help w s f Hp Hh). }
  destruct (versionArg f) eqn:Hv.
  { intros [= <-]. exact (parseArguments_version w s f Hp Hh Hv). }
  destruct (aboutArg f) eqn:Ha; [|discriminate].
  intros [= <-]. exact (parseArguments_about w s f Hp Hh Hv Ha).
Qed.

Lemma Get_read_fails (w : World) (s : process) (f : Flags) (b : list byte)
    (m : string) :
  flag_Parse w (vars s) = Returned f ->
  no_terminal_flag f ->
  ioutil_ReadFile w (configArg f) = (b, Some m) ->
  Get w s =
    (Exited 1,
     mkProcess f (Items s)
       (trace s ++ [ReadFile (configArg f); Print (read_error_line m)])).
Proof.
  intros Hp Hnt Hr. by rewrite (Get_after_parseArguments w s f Hp Hnt), Hr.
Qed.

Lemma Get_decode_fails (w : World) (s : process) (f : Flags) (b : list byte)
    (doc : Configuration) (m : string) :
  flag_Parse w (vars s) = Returned f ->
  no_terminal_flag f ->
  ioutil_ReadFile w (configArg f) = (b, None) ->
  yaml_Unmarshal w b zero_Configuration = (doc, Some m) ->
  Get w s =
    (Exited 1,
     mkProcess f (Items s)
       (trace s ++ [ReadFile (configArg f); Print (decode_error_line m)])).
Proof.
  intros Hp Hnt Hr Hy.
  rewrite (Get_after_parseArguments w s f Hp Hnt), Hr. cbn -[resolve].
  by rewrite Hy.
Qed.

(** A run that fits a constructor of [Get_outcome] is the run of [Get]. *)
Lemma Get_outcome_sound (w : World) (s s' : process) (r : result Configuration) :
  Get_outcome w s r s' -> Get w s = (r, s').
Proof.
  intros [code Hp | f texts Hp Ht | f b m Hp Hnt Hr | f b doc m Hp Hnt Hr Hy
          | f b doc Hd Hm | f b doc Hd Hm Hu | f b doc Hd Hm Hu].
  - exact (Get_exits_with_parseArguments w s code s
             (parseArguments_usage_error w s code Hp)).
  - exact (Get_exits_with_parseArguments w s _ _
             (parseArguments_terminal w s f texts Hp Ht)).
  - exact (Get_read_fails w s f b m Hp Hnt Hr).
  - exact (Get_decode_fails w s f b doc m Hp Hnt Hr Hy).
  - exact (Get_missing_Manifest w s f b doc Hd Hm).
  - exact (Get_missing_URL w s f b doc Hd Hm Hu).
  - exact (Get_success w s f b doc Hd Hm Hu).
Qed.

(** [Get_outcome] holds of what [Get] computes. *)
Lemma Get_outcome_complete (w : World) (s : process) :
  exists r s', Get_outcome w s r s'.
Proof.
  destruct (flag_Parse w (vars s)) as [f|code] eqn:Hp.
  2:{ eexists _, _. by apply usage_error. }
  destruct (terminal_texts w f) as [texts|] eqn:Ht.
  { eexists _, _. by eapply terminal_flag. }
  apply terminal_texts_None in Ht.
  destruct (ioutil_ReadFile w (configArg f)) as [b [m|]] eqn:Hr.
  { eexists _, _. by eapply read_error. }
  destruct (yaml_Unmarshal w b zero_Configuration) as [doc [m|]] eqn:Hy.
  { eexists _, _. by eapply decode_error. }
  assert (Hd : deserializes w s f b doc) by done.
  destruct (decide (Manifest doc = "")) as [Hm|Hm].
  { eexists _, _. by eapply missing_Manifest. }
  destruct (decide (URL doc = "")) as [Hu|Hu].
  { eexists _, _. by eapply missing_URL. }
  eexists _, _. by eapply resolved.
Qed.

Lemma Get_outcome_of_run (w : World) (s s' : process) (r : result Configuration) :
  Get w s = (r, s') -> Get_outcome w s r s'.
Proof.
  intros H. destruct (Get_outcome_complete w s) as (r0 & s0 & Ho).
  pose proof (Get_outcome_sound w s s0 r0 Ho) as H0.
  rewrite H in H0. by injection H0 as -> ->.
Qed.

Lemma terminal_texts_Some (w : World) (f : Flags) (texts : list string) :
  terminal_texts w f = Some texts ->
  helpArg f = true \/ versionArg f = true \/ aboutArg f = true.
Proof.
  unfold terminal_texts.
  destruct (helpArg f), (versionArg f), (aboutArg f); auto; discriminate.
Qed.

(** ** Diagnostics that carry an error *)

Lemma prefix_append (a b : string) : String.prefix a (a +:+ b) = true.
Proof.
  induction a as [|c a IH]; [by destruct b|].
  change (String c a +:+ b) with (String c (a +:+ b)). cbn [String.prefix].
  destruct (Ascii.ascii_dec c c); [exact IH | contradiction].
Qed.

Lemma mentions_prefix (word text : string) :
  String.prefix word text = true -> mentions word text = true.
Proof. intros H. destruct text; cbn [mentions]; by rewrite H. Qed.

Lemma mentions_append (pre word post : string) :
  mentions word (pre +:+ word +:+ post) = true.
Proof.
  induction pre as [|c pre IH].
  - change ("" +:+ word +:+ post) with (word +:+ post).
    apply mentions_prefix, prefix_append.
  - change (String c pre +:+ word +:+ post)
      with (String c (pre +:+ word +:+ post)).
    simpl mentions. rewrite IH. apply orb_true_r.
Qed.

(** X1. When the configuration file cannot be read, [Get] ends the process
    with code 1 after printing one line: the words
    [Unable to read configuration file: ], a space, the message of the
    error and a newline. What the decoder would make of the bytes plays no
    part, and the sink is as it was. *)
Theorem Get_unreadable_file (w : World) (s : process) (f : Flags)
    (b : list byte) (m : string) :
  flag_Parse w (vars s) = Returned f ->
  no_terminal_flag f ->
  ioutil_ReadFile w (configArg f) = (b, Some m) ->
  exists line,
    Get w s =
      (Exited 1,
       mkProcess f (Items s) (trace s ++ [ReadFile (configArg f); Print line])) /\
    line = "Unable to read configuration file:  " +:+ m +:+ newline /\
    mentions "Unable to read configuration file" line = true /\
    mentions m line = true.
Proof.
  intros Hp Hnt Hr. exists (read_error_line m).
  split; [exact (Get_read_fails w s f b m Hp Hnt Hr)|].
  split; [reflexivity|]. split.
  - exact (mentions_append "" "Unable to read configuration file"
             (":  " +:+ m +:+ newline)).
  - exact (mentions_append "Unable to read configuration file:  " m newline).
Qed.

Lemma Get_unreadable_file_witness :
  flag_Parse Failing.unreadable (vars (Fixture.start Failing.unreadable))
    = Returned (Fixture.flags false false) /\
  no_terminal_flag (Fixture.flags false false) /\
  ioutil_ReadFile Failing.unreadable (configArg (Fixture.flags false false))
    = ([], Some "open /ProgramData/gorilla/config.yaml: no such file") /\
  exists line,
    Get Failing.unreadable (Fixture.start Failing.unreadable) =
      (Exited 1,
       mkProcess (Fixture.flags false false) ∅
         ([] ++ [ReadFile "/ProgramData/gorilla/config.yaml"; Print line])) /\
    line = "Unable to read configuration file:  " +:+
           "open /ProgramData/gorilla/config.yaml: no such file" +:+ newline /\
    mentions "Unable to read configuration file" line = true /\
    mentions "open /ProgramData/gorilla/config.yaml: no such file" line = true.
Proof.
  assert (Hp : flag_Parse Failing.unreadable (vars (Fixture.start Failing.unreadable))
               = Returned (Fixture.flags false false)) by reflexivity.
  assert (Hnt : no_terminal_flag (Fixture.flags false false)) by (repeat split).
  assert (Hr : ioutil_ReadFile Failing.unreadable (configArg (Fixture.flags false false))
               = ([], Some "open /ProgramData/gorilla/config.yaml: no such file"))
    by reflexivity.
  repeat (split; [assumption|]).
  exact (Get_unreadable_file _ _ _ _ _ Hp Hnt Hr).
Defined.

(** X2. When the decoder reports an error, [Get] ends the process with
    code 1 after printing one line made of
    [Unable to parse yaml configuration: ], a space, the message of the
    error and a newline; this happens before the manifest and the url are
    looked at, so whatever the decoder left in the document, no validation
    diagnostic is printed. *)
Theorem Get_undecodable_file (w : World) (s : process) (f : Flags)
    (b : list byte) (doc : Configuration) (m : string) :
  flag_Parse w (vars s) = Returned f ->
  no_terminal_flag f ->
  ioutil_ReadFile w (configArg f) = (b, None) ->
  yaml_Unmarshal w b zero_Configuration = (doc, Some m) ->
  exists line,
    Get w s =
      (Exited 1,
       mkProcess f (Items s) (trace s ++ [ReadFile (configArg f); Print line])) /\
    line = "Unable to parse yaml configuration:  " +:+ m +:+ newline /\
    mentions "Unable to parse yaml configuration" line = true /\
    mentions m line = true /\
    line <> Manifest_line /\ line <> URL_line.
Proof.
  intros Hp Hnt Hr Hy. exists (decode_error_line m).
  split; [exact (Get_decode_fails w s f b doc m Hp Hnt Hr Hy)|].
  split; [reflexivity|]. split.
  { exact (mentions_append "" "Unable to parse yaml configuration"
             (":  " +:+ m +:+ newline)). }
  split.
  { exact (mentions_append "Unable to parse yaml configuration:  " m newline). }
  split; discriminate.
Qed.

Lemma Get_undecodable_file_witness :
  flag_Parse Failing.malformed (vars (Fixture.start Failing.malformed))
    = Returned (Fixture.flags false false) /\
  no_terminal_flag (Fixture.flags false false) /\
  ioutil_ReadFile Failing.malformed (configArg (Fixture.flags false false))
    = (Failing.garbage, None) /\
  yaml_Unmarshal Failing.malformed Failing.garbage zero_Configuration
    = (zero_Configuration, Some "yaml: unmarshal errors") /\
  exists line,
    Get Failing.malformed (Fixture.start Failing.malformed) =
      (Exited 1,
       mkProcess (Fixture.flags false false) ∅
         ([] ++ [ReadFile "/ProgramData/gorilla/config.yaml"; Print line])) /\
    line = "Unable to parse yaml configuration:  " +:+
           "yaml: unmarshal errors" +:+ newline /\
    mentions "Unable to parse yaml configuration" line = true /\
    mentions "yaml: unmarshal errors" line = true /\
    line <> Manifest_line /\ line <> URL_line.
Proof.
  assert (Hp : flag_Parse Failing.malformed (vars (Fixture.start Failing.malformed))
               = Returned (Fixture.flags false false)) by reflexivity.
  assert (Hnt : no_terminal_flag (Fixture.flags false false)) by (repeat split).
  assert (Hr : ioutil_ReadFile Failing.malformed (configArg (Fixture.flags false false))
               = (Failing.garbage, None)) by reflexivity.
  assert (Hy : yaml_Unmarshal Failing.malformed Failing.garbage zero_Configuration
               = (zero_Configuration, Some "yaml: unmarshal errors")) by reflexivity.
  repeat (split; [assumption|]).
  exact (Get_undecodable_file _ _ _ _ _ _ Hp Hnt Hr Hy).
Defined.

(** ** What a returned configuration tells *)

Ltac unfold_resolve :=
  unfold resolve, resolve_CachePath, set_build_and_import,
    set_debug_and_verbose, set_verbosity, resolve_AppDataPath,
    backfill_URLPackages.

Lemma resolve_flags (w : World) (f : Flags) (doc : Configuration) :
  BuildArg (resolve w f doc) = buildArg f /\
  ImportArg (resolve w f doc) = importArg f.
Proof. unfold_resolve. repeat (case_match; cbn); by split. Qed.

Lemma resolve_other_fields (w : World) (f : Flags) (doc : Configuration) :
  AuthPass (resolve w f doc) = AuthPass doc /\
  AuthUser (resolve w f doc) = AuthUser doc /\
  Catalogs (resolve w f doc) = Catalogs doc /\
  RepoPath (resolve w f doc) = RepoPath doc /\
  TLSAuth (resolve w f doc) = TLSAuth doc /\
  TLSClientCert (resolve w f doc) = TLSClientCert doc /\
  TLSClientKey (resolve w f doc) = TLSClientKey doc /\
  TLSServerCert (resolve w f doc) = TLSServerCert doc.
Proof. unfold_resolve. repeat (case_match; cbn); by repeat split. Qed.

(** X3. [Get] returns only on the one path on which everything has gone
    well: [flag.Parse] returned, none of help, version and about is set,
    the file was read and decoded without error, and the decoded manifest
    and url are non-empty. The value returned is then the decoded document
    taken through lines 163-191, and the flag variables are those that
    [flag.Parse] left. *)
Theorem Get_returns_only_when_valid (w : World) (s s' : process)
    (cfg : Configuration) :
  Get w s = (Returned cfg, s') ->
  exists f b doc,
    deserializes w s f b doc /\
    Manifest doc <> "" /\ URL doc <> "" /\
    cfg = resolve w f doc /\ vars s' = f.
Proof.
  intros H. apply Get_outcome_of_run in H.
  inversion H as [ | | | | | | f b doc Hd Hm Hu]; subst.
  by exists f, b, doc.
Qed.

Lemma Get_returns_only_when_valid_witness :
  Get Run.plain (Fixture.start Run.plain) = (Returned Run.plain_cfg, Run.plain_end) /\
  exists f b doc,
    deserializes Run.plain (Fixture.start Run.plain) f b doc /\
    Manifest doc <> "" /\ URL doc <> "" /\
    Run.plain_cfg = resolve Run.plain f doc /\ vars Run.plain_end = f.
Proof.
  assert (Hg : Get Run.plain (Fixture.start Run.plain)
               = (Returned Run.plain_cfg, Run.plain_end))
    by (vm_compute; reflexivity).
  split; [exact Hg|].
  exact (Get_returns_only_when_valid _ _ _ _ Hg).
Defined.

(** X4. Every configuration that [Get] returns has a non-empty manifest, a
    non-empty url and a non-empty package url, and its cache path is its
    application-data path joined with [cache]. *)
Theorem Get_result_invariants (w : World) (s s' : process) (cfg : Configuration) :
  Get w s = (Returned cfg, s') ->
  Manifest cfg <> "" /\ URL cfg <> "" /\ URLPackages cfg <> "" /\
  CachePath cfg = filepath_Join w [AppDataPath cfg; "cache"].
Proof.
  intros H. apply Get_outcome_of_run in H.
  inversion H as [ | | | | | | f b doc Hd Hm Hu]; subst.
  rewrite resolve_Manifest, resolve_URL, resolve_URLPackages.
  repeat split; try done.
  destruct (String.eqb (URLPackages doc) "") eqn:E; [done|].
  by apply String.eqb_neq.
Qed.

Lemma Get_result_invariants_witness :
  Get Run.plain (Fixture.start Run.plain) = (Returned Run.plain_cfg, Run.plain_end) /\
  Manifest Run.plain_cfg <> "" /\ URL Run.plain_cfg <> "" /\
  URLPackages Run.plain_cfg <> "" /\
  CachePath Run.plain_cfg = filepath_Join Run.plain [AppDataPath Run.plain_cfg; "cache"].
Proof.
  assert (Hg : Get Run.plain (Fixture.start Run.plain)
               = (Returned Run.plain_cfg, Run.plain_end))
    by (vm_compute; reflexivity).
  split; [exact Hg|].
  exact (Get_result_invariants _ _ _ _ Hg).
Defined.

(** X5. In the configuration that [Get] returns, [BuildArg] and
    [ImportArg] are the values of the [-build] and [-import] flags,
    whatever the decoder put in these two fields; and the credentials, the
    catalog list, the repo path and the four TLS fields are exactly as
    decoded. *)
Theorem Get_flags_through_and_rest_kept (w : World) (s : process) (f : Flags)
    (b : list byte) (doc : Configuration) :
  deserializes w s f b doc -> Manifest doc <> "" -> URL doc <> "" ->
  exists cfg s', Get w s = (Returned cfg, s') /\
    BuildArg cfg = buildArg f /\ ImportArg cfg = importArg f /\
    AuthPass cfg = AuthPass doc /\ AuthUser cfg = AuthUser doc /\
    Catalogs cfg = Catalogs doc /\ RepoPath cfg = RepoPath doc /\
    TLSAuth cfg = TLSAuth doc /\ TLSClientCert cfg = TLSClientCert doc /\
    TLSClientKey cfg = TLSClientKey doc /\ TLSServerCert cfg = TLSServerCert doc.
Proof.
  intros Hd Hm Hu. eexists _, _.
  split; [exact (Get_success w s f b doc Hd Hm Hu)|].
  destruct (resolve_flags w f doc) as [-> ->].
  split; [reflexivity|]. split; [reflexivity|].
  exact (resolve_other_fields w f doc).
Qed.

Lemma Get_flags_through_and_rest_kept_witness :
  deserializes Build.world (Fixture.start Build.world) Build.flags
    (Fixture.content false false) Build.doc /\
  exists cfg s', Get Build.world (Fixture.start Build.world) = (Returned cfg, s') /\
    BuildArg cfg = true /\ ImportArg cfg = "C:\pkg\setup.msi" /\
    AuthPass cfg = "pizzaisyummy" /\ AuthUser cfg = "GorillaRepoUser" /\
    Catalogs cfg = ["production"] /\ RepoPath cfg = "" /\
    TLSAuth cfg = false /\ TLSClientCert cfg = "" /\
    TLSClientKey cfg = "" /\ TLSServerCert cfg = "".
Proof.
  assert (Hd : deserializes Build.world (Fixture.start Build.world) Build.flags
                 (Fixture.content false false) Build.doc)
    by (repeat split).
  split; [exact Hd|].
  apply (Get_flags_through_and_rest_kept _ _ _ _ _ Hd); discriminate.
Defined.

(** ** Exit codes, reads and output *)

(** X6. Once [flag.Parse] has returned, [Get] ends the process with code 0
    exactly when one of help, version and about is set, and otherwise only
    with code 1; it exits with no other code. *)
Theorem Get_exit_codes (w : World) (s s' : process) (f : Flags) (code : Z) :
  flag_Parse w (vars s) = Returned f ->
  Get w s = (Exited code, s') ->
  (code = 0%Z /\ (helpArg f = true \/ versionArg f = true \/ aboutArg f = true)) \/
  (code = 1%Z /\ no_terminal_flag f).
Proof.
  intros Hp H. apply Get_outcome_of_run in H.
  inversion H as [c Hp' | f' texts Hp' Ht | f' b m Hp' Hnt Hr
                  | f' b doc m Hp' Hnt Hr Hy | f' b doc Hd Hm
                  | f' b doc Hd Hm Hu | ]; subst;
    try destruct Hd as (Hp' & Hnt & _); rewrite Hp in Hp';
    try discriminate; injection Hp' as <-.
  - left. split; [reflexivity|]. exact (terminal_texts_Some w f texts Ht).
  - by right.
  - by right.
  - by right.
  - by right.
Qed.

Lemma Get_exit_codes_witness :
  flag_Parse Run.help (vars (Fixture.start Run.help)) = Returned Run.help_flags /\
  Get Run.help (Fixture.start Run.help) =
    (Exited 0, mkProcess Run.help_flags ∅ [Print "gorilla 1.0"; Print usage]) /\
  ((0 = 0 /\ (helpArg Run.help_flags = true \/ versionArg Run.help_flags = true \/
              aboutArg Run.help_flags = true)) \/
   (0 = 1 /\ no_terminal_flag Run.help_flags))%Z.
Proof.
  assert (Hp : flag_Parse Run.help (vars (Fixture.start Run.help))
               = Returned Run.help_flags) by reflexivity.
  assert (Hg : Get Run.help (Fixture.start Run.help) =
               (Exited 0, mkProcess Run.help_flags ∅ [Print "gorilla 1.0"; Print usage]))
    by (vm_compute; reflexivity).
  split; [exact Hp|]. split; [exact Hg|].
  exact (Get_exit_codes _ _ _ _ _ Hp Hg).
Defined.

(** X7. A run of [Get] reads at most one file, and only the one named by
    the config flag: it reads nothing when it stops in [parseArguments],
    and otherwise exactly the path in [configArg], once. *)
Theorem Get_reads_only_the_config_file (w : World) (s s' : process)
    (r : result Configuration) :
  Get w s = (r, s') ->
  exists tr, trace s' = trace s ++ tr /\
    match flag_Parse w (vars s) with
    | Exited _ => files_read tr = []
    | Returned f =>
        files_read tr =
          match terminal_texts w f with
          | Some _ => []
          | None => [configArg f]
          end
    end.
Proof.
  intros H. apply Get_outcome_of_run in H.
  inversion H as [c Hp | f texts Hp Ht | f b m Hp Hnt Hr
                  | f b doc m Hp Hnt Hr Hy | f b doc Hd Hm
                  | f b doc Hd Hm Hu | f b doc Hd Hm Hu]; subst;
    try destruct Hd as (Hp & Hnt & _); rewrite Hp;
    try rewrite (proj2 (terminal_texts_None w f) Hnt).
  - exists []. by rewrite app_nil_r.
  - rewrite Ht. eexists. split; [reflexivity|]. apply prints_only.
  - by eexists.
  - by eexists.
  - by eexists.
  - by eexists.
  - by eexists.
Qed.

Lemma Get_reads_only_the_config_file_witness :
  Get Run.plain (Fixture.start Run.plain) = (Returned Run.plain_cfg, Run.plain_end) /\
  exists tr, trace Run.plain_end = trace (Fixture.start Run.plain) ++ tr /\
    files_read tr = ["/ProgramData/gorilla/config.yaml"].
Proof.
  assert (Hg : Get Run.plain (Fixture.start Run.plain)
               = (Returned Run.plain_cfg, Run.plain_end))
    by (vm_compute; reflexivity).
  split; [exact Hg|].
  exact (Get_reads_only_the_config_file _ _ _ _ Hg).
Defined.

(** X8. A run of [Get] that returns prints nothing. A run that ends with
    code 1 after [flag.Parse] has returned prints exactly one line, and the
    line is the read diagnostic, the decoder diagnostic, the manifest
    diagnostic or the URL diagnostic. *)
Theorem Get_output (w : World) (s s' : process) (r : result Configuration)
    (f : Flags) :
  flag_Parse w (vars s) = Returned f ->
  Get w s = (r, s') ->
  exists tr, trace s' = trace s ++ tr /\
    match r with
    | Returned _ => printed tr = []
    | Exited code =>
        code = 1%Z ->
        exists line, printed tr = [line] /\
          ((exists m, line = read_error_line m) \/
           (exists m, line = decode_error_line m) \/
           line = Manifest_line \/ line = URL_line)
    end.
Proof.
  intros Hp0 H. apply Get_outcome_of_run in H.
  inversion H as [c Hp | f' texts Hp Ht | f' b m Hp Hnt Hr
                  | f' b doc m Hp Hnt Hr Hy | f' b doc Hd Hm
                  | f' b doc Hd Hm Hu | f' b doc Hd Hm Hu]; subst.
  - rewrite Hp0 in Hp. discriminate.
  - eexists. split; [reflexivity|]. discriminate.
  - eexists. split; [reflexivity|]. intros _. eexists. split; [reflexivity|]. eauto.
  - eexists. split; [reflexivity|]. intros _. eexists. split; [reflexivity|]. eauto.
  - eexists. split; [reflexivity|]. intros _. eexists. split; [reflexivity|]. eauto.
  - eexists. split; [reflexivity|]. intros _. eexists. split; [reflexivity|]. eauto.
  - eexists. split; reflexivity.
Qed.

Lemma Get_output_witness :
  flag_Parse Failing.unreadable (vars (Fixture.start Failing.unreadable))
    = Returned (Fixture.flags false false) /\
  Get Failing.unreadable (Fixture.start Failing.unreadable) =
    (Exited 1,
     mkProcess (Fixture.flags false false) ∅
       [ReadFile "/ProgramData/gorilla/config.yaml";
        Print (read_error_line "open /ProgramData/gorilla/config.yaml: no such file")]) /\
  exists tr,
    [ReadFile "/ProgramData/gorilla/config.yaml";
     Print (read_error_line "open /ProgramData/gorilla/config.yaml: no such file")]
      = [] ++ tr /\
    (1 = 1 ->
     exists line, printed tr = [line] /\
       ((exists m, line = read_error_line m) \/
        (exists m, line = decode_error_line m) \/
        line = Manifest_line \/ line = URL_line))%Z.
Proof.
  assert (Hp : flag_Parse Failing.unreadable (vars (Fixture.start Failing.unreadable))
               = Returned (Fixture.flags false false)) by reflexivity.
  assert (Hg : Get Failing.unreadable (Fixture.start Failing.unreadable) =
    (Exited 1,
     mkProcess (Fixture.flags false false) ∅
       [ReadFile "/ProgramData/gorilla/config.yaml";
        Print (read_error_line "open /ProgramData/gorilla/config.yaml: no such file")]))
    by (vm_compute; reflexivity).
  split; [exact Hp|]. split; [exact Hg|].
  exact (Get_output _ _ _ _ _ Hp Hg).
Defined.

(** ** The report sink, once more *)

Lemma deserializes_vars (w : World) (s1 s2 : process) (f : Flags)
    (b : list byte) (doc : Configuration) :
  flag_Parse w (vars s2) = flag_Parse w (vars s1) ->
  deserializes w s1 f b doc -> deserializes w s2 f b doc.
Proof. intros Hv (Hp & Hrest). split; [by rewrite Hv | exact Hrest]. Qed.

(** X9. Whatever way [Get] ends, every key of the report sink other than
    [Manifest] and [Catalog] holds what it held before; and when [Get]
    returns, looking up [Manifest] gives the returned manifest and looking
    up [Catalog] gives the returned catalog list. *)
Theorem Get_report_lookup (w : World) (s s' : process) (r : result Configuration) :
  Get w s = (r, s') ->
  (forall k : string, k <> "Manifest" -> k <> "Catalog" ->
     Items s' !! k = Items s !! k) /\
  (forall cfg, r = Returned cfg ->
     Items s' !! "Manifest" = Some (ItemString (Manifest cfg)) /\
     Items s' !! "Catalog" = Some (ItemStrings (Catalogs cfg))).
Proof.
  intros H. apply Get_outcome_of_run in H.
  inversion H as [c Hp | f texts Hp Ht | f b m Hp Hnt Hr
                  | f b doc m Hp Hnt Hr Hy | f b doc Hd Hm
                  | f b doc Hd Hm Hu | f b doc Hd Hm Hu]; subst;
    (split; [intros k Hk1 Hk2 | intros cfg [= <-]]); cbn [Items]; try done.
  - by rewrite !lookup_insert_ne.
  - rewrite resolve_Manifest, resolve_Catalogs.
    split; [|by rewrite lookup_insert_eq].
    rewrite lookup_insert_ne; [|done]. by rewrite lookup_insert_eq.
Qed.

Lemma Get_report_lookup_witness :
  Get Run.plain (Fixture.start Run.plain) = (Returned Run.plain_cfg, Run.plain_end) /\
  (forall k : string, k <> "Manifest" -> k <> "Catalog" ->
     Items Run.plain_end !! k = Items (Fixture.start Run.plain) !! k) /\
  (forall cfg, Returned Run.plain_cfg = Returned cfg ->
     Items Run.plain_end !! "Manifest" = Some (ItemString (Manifest cfg)) /\
     Items Run.plain_end !! "Catalog" = Some (ItemStrings (Catalogs cfg))).
Proof.
  assert (Hg : Get Run.plain (Fixture.start Run.plain)
               = (Returned Run.plain_cfg, Run.plain_end))
    by (vm_compute; reflexivity).
  split; [exact Hg|].
  exact (Get_report_lookup _ _ _ _ Hg).
Defined.

(** X10. Calling [Get] again in the process it left, with [flag.Parse]
    giving the same values as the first time, returns the same
    configuration and leaves the report sink and the flag variables as the
    first call left them. *)
Theorem Get_again (w : World) (s s' : process) (cfg : Configuration) :
  Get w s = (Returned cfg, s') ->
  flag_Parse w (vars s') = flag_Parse w (vars s) ->
  exists s'', Get w s' = (Returned cfg, s'') /\
    Items s'' = Items s' /\ vars s'' = vars s'.
Proof.
  intros H Hv. apply Get_outcome_of_run in H.
  inversion H as [ | | | | | | f b doc Hd Hm Hu]; subst.
  eexists. split.
  { apply (Get_success w _ f b doc); [|done..].
    by apply (deserializes_vars w s). }
  split; [|reflexivity]. cbn [Items].
  apply map_eq. intros k.
  destruct (decide (k = "Catalog")) as [->|Hc].
  { by rewrite !lookup_insert_eq. }
  destruct (decide (k = "Manifest")) as [->|Hk].
  { rewrite !(lookup_insert_ne _ "Catalog" "Manifest") by done.
    by rewrite !lookup_insert_eq. }
  apply not_eq_sym in Hc, Hk. by rewrite !lookup_insert_ne by assumption.
Qed.

Lemma Get_again_witness :
  Get Run.plain (Fixture.start Run.plain) = (Returned Run.plain_cfg, Run.plain_end) /\
  flag_Parse Run.plain (vars Run.plain_end)
    = flag_Parse Run.plain (vars (Fixture.start Run.plain)) /\
  exists s'', Get Run.plain Run.plain_end = (Returned Run.plain_cfg, s'') /\
    Items s'' = Items Run.plain_end /\ vars s'' = vars Run.plain_end.
Proof.
  assert (Hg : Get Run.plain (Fixture.start Run.plain)
               = (Returned Run.plain_cfg, Run.plain_end))
    by (vm_compute; reflexivity).
  assert (Hv : flag_Parse Run.plain (vars Run.plain_end)
               = flag_Parse Run.plain (vars (Fixture.start Run.plain)))
    by reflexivity.
  split; [exact Hg|]. split; [exact Hv|].
  exact (Get_again _ _ _ _ Hg Hv).
Defined.

(** X11. What [Get] does depends on the flag variables alone, not on what
    the process has printed or read before nor on what the report sink
    holds: from two processes with the same flag variables it ends with
    the same result, the same flag variables and the same new events. *)
Theorem Get_ignores_trace_and_sink (w : World) (s1 s2 s1' : process)
    (r : result Configuration) :
  vars s1 = vars s2 ->
  Get w s1 = (r, s1') ->
  exists s2' tr,
    Get w s2 = (r, s2') /\ vars s2' = vars s1' /\
    trace s1' = trace s1 ++ tr /\ trace s2' = trace s2 ++ tr.
Proof.
  intros Hv H. apply Get_outcome_of_run in H.
  assert (Hfp : flag_Parse w (vars s2) = flag_Parse w (vars s1)) by (by rewrite Hv).
  inversion H as [c Hp | f texts Hp Ht | f b m Hp Hnt Hr
                  | f b doc m Hp Hnt Hr Hy | f b doc Hd Hm
                  | f b doc Hd Hm Hu | f b doc Hd Hm Hu]; subst;
    try (apply (deserializes_vars w s1 s2) in Hd; [|done]);
    try rewrite <- Hfp in Hp.
  - exists s2, []. rewrite !app_nil_r.
    split; [apply Get_outcome_sound; by apply usage_error | done].
  - eexists _, _. split; [apply Get_outcome_sound; by eapply terminal_flag|]. done.
  - eexists _, _. split; [apply Get_outcome_sound; by eapply read_error|]. done.
  - eexists _, _. split; [apply Get_outcome_sound; by eapply decode_error|]. done.
  - eexists _, _. split; [apply Get_outcome_sound; by eapply missing_Manifest|]. done.
  - eexists _, _. split; [apply Get_outcome_sound; by eapply missing_URL|]. done.
  - eexists _, _. split; [apply Get_outcome_sound; by eapply resolved|]. done.
Qed.

Lemma Get_ignores_trace_and_sink_witness :
  vars (Fixture.start Run.plain) = vars Run.plain_end /\
  Get Run.plain (Fixture.start Run.plain) = (Returned Run.plain_cfg, Run.plain_end) /\
  exists s2' tr,
    Get Run.plain Run.plain_end = (Returned Run.plain_cfg, s2') /\
    vars s2' = vars Run.plain_end /\
    trace Run.plain_end = trace (Fixture.start Run.plain) ++ tr /\
    trace s2' = trace Run.plain_end ++ tr.
Proof.
  assert (Hv : vars (Fixture.start Run.plain) = vars Run.plain_end)
    by (vm_compute; reflexivity).
  assert (Hg : Get Run.plain (Fixture.start Run.plain)
               = (Returned Run.plain_cfg, Run.plain_end))
    by (vm_compute; reflexivity).
  split; [exact Hv|]. split; [exact Hg|].
  exact (Get_ignores_trace_and_sink _ _ _ _ _ Hv Hg).
Defined.

(** ** [init] *)

Lemma bind_flag_vars (name : string) (b : flag_binding) (st st' : flag_state) :
  bind_flag name b st = Some st' -> flag_vars st' = flag_vars st.
Proof.
  unfold bind_flag. destruct (formal st !! name); [discriminate|].
  by intros [= <-].
Qed.

Lemma flag_BoolVar_vars (p : bool_var) (name : string) (value : bool)
    (st st' : flag_state) :
  flag_BoolVar p name value st = Some st' ->
  flag_vars st' = store_bool p value (flag_vars st).
Proof. intros H. by apply bind_flag_vars in H. Qed.

Lemma flag_StringVar_vars (p : string_var) (name : string) (value : string)
    (st st' : flag_state) :
  flag_StringVar p name value st = Some st' ->
  flag_vars st' = store_string p value (flag_vars st).
Proof. intros H. by apply bind_flag_vars in H. Qed.

(** Whatever the flag variables held and whatever names were bound before,
    an [init] that does not panic leaves the defaults in the variables. *)
Lemma init_flag_vars (w : World) (st0 st : flag_state) :
  init w st0 = Some st -> flag_vars st = init_vars w.
Proof.
  unfold init. intros H.
  repeat (apply bind_Some in H as (? & ?%flag_BoolVar_vars & H)
          || apply bind_Some in H as (? & ?%flag_StringVar_vars & H)).
  apply flag_BoolVar_vars in H.
  repeat match goal with E : flag_vars _ = _ |- _ => rewrite E; clear E end.
  reflexivity.
Qed.

(** X12. Started with no name bound, [init] does not panic, whatever the
    flag variables held: it leaves every flag variable at its default
    (false, the empty string, and for the config path
    [filepath.Join(os.Getenv("ProgramData"), "gorilla/config.yaml")]) and
    binds sixteen names. Each option line of the usage text names a short
    and a long form that are both bound, to the same variable with the same
    default; these are all the names there are. *)
Theorem init_binds_the_documented_flags (w : World) (f0 : Flags) :
  exists fs,
    init w (mkFlagState f0 ∅) = Some (mkFlagState (init_vars w) fs) /\
    size fs = 16 /\
    Forall (fun '(short, long) =>
              is_Some (fs !! long) /\ fs !! short = fs !! long /\
              mentions ("-" +:+ short +:+ ", -" +:+ long) usage = true)
      usage_options /\
    NoDup (usage_options.*1 ++ usage_options.*2).
Proof.
  destruct (init w (mkFlagState f0 ∅)) as [[v fs]|] eqn:E; [|by vm_compute in E].
  pose proof (init_flag_vars w _ _ E) as Hv. cbn in Hv. subst v.
  exists fs. split; [reflexivity|].
  vm_compute in E. injection E as <-.
  split; [by vm_compute|].
  split.
  - repeat (apply Forall_cons; split;
            [split; [by eexists | split; by vm_compute]|]).
    apply Forall_nil. done.
  - apply NoDup_ListNoDup. vm_compute.
    repeat (constructor; [intros Hin; cbn in Hin; intuition discriminate|]).
    constructor.
Qed.

(** ** A run without flags *)

(** X13. After [init], when the command line carries no flag, so that
    [flag.Parse] leaves the variables as [init] set them, [Get] reads the
    default file [filepath.Join(os.Getenv("ProgramData"),
    "gorilla/config.yaml")] and no other; for a document that passes
    validation it returns the file's verbose and debug values unchanged,
    [BuildArg] false and [ImportArg] empty. *)
Theorem Get_without_flags (w : World) (st0 st : flag_state) (s : process)
    (b : list byte) (doc : Configuration) :
  init w st0 = Some st ->
  vars s = flag_vars st ->
  flag_Parse w (vars s) = Returned (vars s) ->
  ioutil_ReadFile w (configDefault w) = (b, None) ->
  yaml_Unmarshal w b zero_Configuration = (doc, None) ->
  Manifest doc <> "" -> URL doc <> "" ->
  exists cfg s', Get w s = (Returned cfg, s') /\
    files_read (trace s') = files_read (trace s) ++ [configDefault w] /\
    Verbose cfg = Verbose doc /\ Debug cfg = Debug doc /\
    BuildArg cfg = false /\ ImportArg cfg = "".
Proof.
  intros Hi Hv Hp Hr Hy Hm Hu.
  apply init_flag_vars in Hi. rewrite Hi in Hv.
  assert (Hd : deserializes w s (init_vars w) b doc).
  { split; [by rewrite <- Hv|]. by repeat split. }
  eexists _, _. split; [exact (Get_success w s _ b doc Hd Hm Hu)|].
  rewrite resolve_Verbose, resolve_Debug.
  destruct (resolve_flags w (init_vars w) doc) as [-> ->].
  cbn. rewrite files_read_app, !orb_false_r. done.
Qed.

Lemma Get_without_flags_witness :
  init Run.plain (mkFlagState Build.flags ∅)
    = Some (mkFlagState (init_vars Run.plain) (names_bound_by_init Run.plain)) /\
  vars (Fixture.start Run.plain) = init_vars Run.plain /\
  flag_Parse Run.plain (vars (Fixture.start Run.plain))
    = Returned (vars (Fixture.start Run.plain)) /\
  ioutil_ReadFile Run.plain (configDefault Run.plain)
    = (Fixture.content false false, None) /\
  yaml_Unmarshal Run.plain (Fixture.content false false) zero_Configuration
    = (Fixture.doc false false, None) /\
  exists cfg s', Get Run.plain (Fixture.start Run.plain) = (Returned cfg, s') /\
    files_read (trace s') =
      files_read (trace (Fixture.start Run.plain)) ++ [configDefault Run.plain] /\
    Verbose cfg = Verbose (Fixture.doc false false) /\
    Debug cfg = Debug (Fixture.doc false false) /\
    BuildArg cfg = false /\ ImportArg cfg = "".
Proof.
  assert (Hi : init Run.plain (mkFlagState Build.flags ∅)
               = Some (mkFlagState (init_vars Run.plain) (names_bound_by_init Run.plain)))
    by (vm_compute; reflexivity).
  assert (Hv : vars (Fixture.start Run.plain) = init_vars Run.plain) by reflexivity.
  assert (Hp : flag_Parse Run.plain (vars (Fixture.start Run.plain))
               = Returned (vars (Fixture.start Run.plain)))
    by (vm_compute; reflexivity).
  assert (Hr : ioutil_ReadFile Run.plain (configDefault Run.plain)
               = (Fixture.content false false, None)) by reflexivity.
  assert (Hy : yaml_Unmarshal Run.plain (Fixture.content false false) zero_Configuration
               = (Fixture.doc false false, None)) by reflexivity.
  repeat (split; [assumption|]).
  apply (Get_without_flags _ _ _ _ _ _ Hi Hv Hp Hr Hy); discriminate.
Defined.
